(** * Gold-mine site records: store access, reporting and session roles

    A shallow embedding of the record store (src/db/database.ts), the page
    handlers that mutate it (Settings, Purchases, Production, Inventory, App),
    the reporting aggregation (Reports) and the role check (AuthContext),
    followed by the properties proved about them.

    Conventions of the embedding.
    - A JavaScript [number] that holds a measured quantity is an exact
      rational ([Q]); IEEE rounding of [/] and [*] is not modelled, and
      [NaN] is [None] where a computation can produce it.
    - The store is Dexie over IndexedDB, a library outside the repository;
      its table calls are modelled after their documented behaviour.  A
      primary key is a [nat]; a [++id] table hands out 1, 2, 3, ...
    - A timestamp is the clock reading in milliseconds since the epoch
      ([Z]); [toISOString] renders it in a fixed-width, order-preserving
      text form, which is what the store keeps.
    - The clock, the [window.confirm] answer and React props are explicit
      arguments of the handlers; the database is threaded as a value. *)

From Stdlib Require Import ZArith QArith Qround Lia Lqa Ascii String Sorted.
From stdpp Require Import base option list strings gmap.

Local Open Scope Z_scope.

(** ** JavaScript numbers *)

Module JS.

(** [Math.round]: the nearest integer, a tie going up. *)
Definition round (x : Q) : Z := Qfloor (x + (1 # 2))%Q.

(** [Math.ceil]. *)
Definition ceil (x : Q) : Z := Qceiling x.

(** [a > b] on numbers. *)
Definition gt (a b : Q) : bool := negb (Qle_bool a b).

(** [a <= b] on numbers. *)
Definition le (a b : Q) : bool := Qle_bool a b.

(** [s1 <= s2] on strings: code-unit order (byte order on ASCII text). *)
Definition str_le (s1 s2 : string) : bool := String.leb s1 s2.

(** [s1 >= s2] on strings. *)
Definition str_ge (s1 s2 : string) : bool := String.leb s2 s1.

End JS.

(** ** Dates: [new Date("YYYY-MM-DD").getTime()]

    A date-only ISO string denotes midnight UTC of that calendar day.  The
    day number follows ECMAScript's [DayFromYear] and [MakeDay].  Anything
    that is not a calendar date of that form is [None] (an invalid Date,
    whose [getTime()] is [NaN]); a [<input type="date">] yields either a
    calendar date or the empty string. *)

Module Date.

Definition msPerDay : Z := 1000 * 60 * 60 * 24.

Definition digit (c : ascii) : option Z :=
  let n := Z.of_nat (nat_of_ascii c) in
  if (48 <=? n) && (n <=? 57) then Some (n - 48) else None.

Definition InLeapYear (y : Z) : bool :=
  ((y mod 4 =? 0) && negb (y mod 100 =? 0)) || (y mod 400 =? 0).

Definition DayFromYear (y : Z) : Z :=
  365 * (y - 1970) + (y - 1969) / 4 - (y - 1901) / 100 + (y - 1601) / 400.

Definition DaysInMonth (y m : Z) : Z :=
  if m =? 2 then (if InLeapYear y then 29 else 28)
  else if (m =? 4) || (m =? 6) || (m =? 9) || (m =? 11) then 30
  else 31.

(** Days of the year before the first of month [m] (1-based). *)
Definition DayWithinYear (y m : Z) : Z :=
  let leap := if InLeapYear y then 1 else 0 in
  match m with
  | 1 => 0 | 2 => 31 | 3 => 59 + leap | 4 => 90 + leap
  | 5 => 120 + leap | 6 => 151 + leap | 7 => 181 + leap
  | 8 => 212 + leap | 9 => 243 + leap | 10 => 273 + leap
  | 11 => 304 + leap | _ => 334 + leap
  end.

Definition MakeDay (y m d : Z) : Z := DayFromYear y + DayWithinYear y m + (d - 1).

(** The year, month and day that a "YYYY-MM-DD" string spells, when they
    make a calendar date. *)
Definition fields (s : string) : option (Z * Z * Z) :=
  match list_ascii_of_string s with
  | [y1; y2; y3; y4; s1; m1; m2; s2; d1; d2] =>
      a ← digit y1; b ← digit y2; c ← digit y3; e ← digit y4;
      p ← digit m1; q ← digit m2; u ← digit d1; v ← digit d2;
      let y := 1000 * a + 100 * b + 10 * c + e in
      let m := 10 * p + q in
      let d := 10 * u + v in
      if Ascii.eqb s1 "-" && Ascii.eqb s2 "-"
         && (1 <=? m) && (m <=? 12) && (1 <=? d) && (d <=? DaysInMonth y m)
      then Some (y, m, d) else None
  | _ => None
  end.

(** The day number (days since 1970-01-01) of a "YYYY-MM-DD" string. *)
Definition dayNumber (s : string) : option Z :=
  ymd ← fields s; Some (MakeDay ymd.1.1 ymd.1.2 ymd.2).

(** [new Date(s).getTime()]. *)
Definition getTime (s : string) : option Z :=
  d ← dayNumber s; Some (d * msPerDay).

End Date.

(** ** Entities (src/db/database.ts)

    The optional [id] of the TypeScript interfaces is the primary key; a
    row read from a table is the pair of its key and its fields. *)

Definition Timestamp := Z.

Inductive Shift := morning | afternoon | night.
Inductive WorkerStatus := active | inactive | leave.
Inductive InventoryCategory :=
  inv_equipment | inv_tools | inv_spare_parts | inv_consumables | inv_safety.
Inductive Condition := good | fair | poor | broken.
Inductive PurchaseCategory :=
  pur_equipment | pur_consumables | pur_maintenance | pur_transport | pur_other.
Inductive Theme := dark | light.
Inductive Language := fr | en.

Record Site := {
  site_name : string;
  site_location : string;
  isActive : bool;
  site_createdAt : Timestamp }.

Record Production := {
  prod_siteId : nat;
  prod_date : string;
  quantityGrams : Q;
  prod_team : string;
  prod_shift : Shift;
  prod_notes : string;
  prod_createdAt : Timestamp;
  prod_updatedAt : Timestamp }.

Record Worker := {
  wk_siteId : nat;
  firstName : string;
  lastName : string;
  wk_role : string;
  wk_phone : string;
  wk_team : string;
  wk_status : WorkerStatus;
  hireDate : string;
  wk_createdAt : Timestamp;
  wk_updatedAt : Timestamp }.

Record InventoryItem := {
  inv_siteId : nat;
  inv_name : string;
  inv_category : InventoryCategory;
  quantity : Q;
  unit_ : string;
  minQuantity : Q;
  condition : Condition;
  inv_location : string;
  inv_notes : string;
  inv_createdAt : Timestamp;
  inv_updatedAt : Timestamp }.

Record Purchase := {
  pur_siteId : nat;
  item : string;
  amount : Q;
  currency : string;
  supplier : string;
  pur_category : PurchaseCategory;
  receiptPhoto : string;
  purchaseDate : string;
  purchaseTime : string;
  pur_notes : string;
  pur_createdAt : Timestamp;
  pur_updatedAt : Timestamp }.

Record DailyReport := {
  dr_siteId : nat;
  dr_date : string;
  summary : string;
  incidents : string;
  observations : string;
  photos : list string;
  productionTotal : Q;
  workersPresent : Q;
  dr_createdAt : Timestamp;
  dr_updatedAt : Timestamp }.

Record Settings := {
  showVsYesterday : bool;
  showVsLastWeek : bool;
  showWorkingDays : bool;
  showProductionComparison : bool;
  showPurchaseComparison : bool;
  theme : Theme;
  language : Language;
  set_updatedAt : Timestamp }.

(** ** Tables with an auto-incremented primary key (Dexie [++id])

    Slot [k - 1] of a table holds the row whose primary key is [k], or
    [None] once that row has been deleted: keys are handed out in order and
    never reused, and every read that walks the table ([toArray], [first],
    [filter]) goes in key order. *)

Module Table.

Definition t (A : Type) := list (option A).

Section Ops.
Context {A : Type}.

Definition empty : list (option A) := [].

(** [table.add(row)]: stores the row under the next key, which it returns. *)
Definition add (row : A) (tb : list (option A)) : nat * list (option A) :=
  (S (length tb), tb ++ [Some row]).

(** [table.get(key)]. *)
Definition get (key : nat) (tb : list (option A)) : option A :=
  match key with
  | O => None
  | S i => mjoin (tb !! i)
  end.

(** [table.update(key, changes)]: applies the changes to the row stored
    under [key]; nothing happens when there is no such row. *)
Definition update (key : nat) (changes : A -> A) (tb : list (option A)) : list (option A) :=
  match key with
  | O => tb
  | S i => alter (fun slot : option A => changes <$> slot) i tb
  end.

(** [table.delete(key)]. *)
Definition delete (key : nat) (tb : list (option A)) : list (option A) :=
  match key with
  | O => tb
  | S i => <[i := None]> tb
  end.

(** [table.toCollection().modify(changes)]: every row is changed. *)
Definition modify (changes : A -> A) (tb : list (option A)) : list (option A) :=
  (fun slot : option A => changes <$> slot) <$> tb.

(** [table.where(field).equals(v).delete()], the index match given as a
    boolean test on the row. *)
Definition deleteWhere (test : A -> bool) (tb : list (option A)) : list (option A) :=
  (fun slot => match slot with
               | Some row => if test row then None else Some row
               | None => None
               end) <$> tb.

(** The rows from slot number [i] on, each with its key. *)
Fixpoint rowsFrom (i : nat) (tb : list (option A)) : list (nat * A) :=
  match tb with
  | [] => []
  | Some row :: tb' => (S i, row) :: rowsFrom (S i) tb'
  | None :: tb' => rowsFrom (S i) tb'
  end.

(** [table.toArray()]: the rows in key order, each with its key. *)
Definition toArray (tb : list (option A)) : list (nat * A) := rowsFrom 0 tb.

(** [table.filter(test).toArray()]. *)
Definition filterToArray (test : A -> bool) (tb : list (option A)) : list (nat * A) :=
  List.filter (fun kr => test kr.2) (toArray tb).

(** [table.toCollection().first()]. *)
Definition first (tb : list (option A)) : option (nat * A) := head (toArray tb).

End Ops.

Arguments empty {A}.

End Table.

(** ** The database: seven tables (class GoldMineDatabase) *)

Record DB := {
  sites : Table.t Site;
  productions : Table.t Production;
  workers : Table.t Worker;
  inventory : Table.t InventoryItem;
  purchases : Table.t Purchase;
  dailyReports : Table.t DailyReport;
  settings : Table.t Settings }.

Definition emptyDB : DB :=
  {| sites := Table.empty; productions := Table.empty; workers := Table.empty;
     inventory := Table.empty; purchases := Table.empty;
     dailyReports := Table.empty; settings := Table.empty |}.

Definition set_sites (f : Table.t Site -> Table.t Site) (db : DB) : DB :=
  {| sites := f (sites db); productions := productions db; workers := workers db;
     inventory := inventory db; purchases := purchases db;
     dailyReports := dailyReports db; settings := settings db |}.

Definition set_productions (f : Table.t Production -> Table.t Production) (db : DB) : DB :=
  {| sites := sites db; productions := f (productions db); workers := workers db;
     inventory := inventory db; purchases := purchases db;
     dailyReports := dailyReports db; settings := settings db |}.

Definition set_workers (f : Table.t Worker -> Table.t Worker) (db : DB) : DB :=
  {| sites := sites db; productions := productions db; workers := f (workers db);
     inventory := inventory db; purchases := purchases db;
     dailyReports := dailyReports db; settings := settings db |}.

Definition set_inventory (f : Table.t InventoryItem -> Table.t InventoryItem) (db : DB) : DB :=
  {| sites := sites db; productions := productions db; workers := workers db;
     inventory := f (inventory db); purchases := purchases db;
     dailyReports := dailyReports db; settings := settings db |}.

Definition set_purchases (f : Table.t Purchase -> Table.t Purchase) (db : DB) : DB :=
  {| sites := sites db; productions := productions db; workers := workers db;
     inventory := inventory db; purchases := f (purchases db);
     dailyReports := dailyReports db; settings := settings db |}.

Definition set_dailyReports (f : Table.t DailyReport -> Table.t DailyReport) (db : DB) : DB :=
  {| sites := sites db; productions := productions db; workers := workers db;
     inventory := inventory db; purchases := purchases db;
     dailyReports := f (dailyReports db); settings := settings db |}.

Definition set_settings (f : Table.t Settings -> Table.t Settings) (db : DB) : DB :=
  {| sites := sites db; productions := productions db; workers := workers db;
     inventory := inventory db; purchases := purchases db;
     dailyReports := dailyReports db; settings := f (settings db) |}.

(** ** Partial updates ([table.update(key, changes)])

    A changes object names the fields it overwrites; the others keep the
    stored value. *)

Record SiteChanges := {
  ch_site_name : option string;
  ch_site_location : option string;
  ch_isActive : option bool;
  ch_site_createdAt : option Timestamp }.

Definition applySite (c : SiteChanges) (s : Site) : Site :=
  {| site_name := default (site_name s) (ch_site_name c);
     site_location := default (site_location s) (ch_site_location c);
     isActive := default (isActive s) (ch_isActive c);
     site_createdAt := default (site_createdAt s) (ch_site_createdAt c) |}.

Record ProductionChanges := {
  ch_prod_siteId : option nat;
  ch_prod_date : option string;
  ch_quantityGrams : option Q;
  ch_prod_team : option string;
  ch_prod_shift : option Shift;
  ch_prod_notes : option string;
  ch_prod_createdAt : option Timestamp;
  ch_prod_updatedAt : option Timestamp }.

Definition applyProduction (c : ProductionChanges) (p : Production) : Production :=
  {| prod_siteId := default (prod_siteId p) (ch_prod_siteId c);
     prod_date := default (prod_date p) (ch_prod_date c);
     quantityGrams := default (quantityGrams p) (ch_quantityGrams c);
     prod_team := default (prod_team p) (ch_prod_team c);
     prod_shift := default (prod_shift p) (ch_prod_shift c);
     prod_notes := default (prod_notes p) (ch_prod_notes c);
     prod_createdAt := default (prod_createdAt p) (ch_prod_createdAt c);
     prod_updatedAt := default (prod_updatedAt p) (ch_prod_updatedAt c) |}.

Record InventoryChanges := {
  ch_inv_siteId : option nat;
  ch_inv_name : option string;
  ch_inv_category : option InventoryCategory;
  ch_quantity : option Q;
  ch_unit : option string;
  ch_minQuantity : option Q;
  ch_condition : option Condition;
  ch_inv_location : option string;
  ch_inv_notes : option string;
  ch_inv_createdAt : option Timestamp;
  ch_inv_updatedAt : option Timestamp }.

Definition applyInventory (c : InventoryChanges) (i : InventoryItem) : InventoryItem :=
  {| inv_siteId := default (inv_siteId i) (ch_inv_siteId c);
     inv_name := default (inv_name i) (ch_inv_name c);
     inv_category := default (inv_category i) (ch_inv_category c);
     quantity := default (quantity i) (ch_quantity c);
     unit_ := default (unit_ i) (ch_unit c);
     minQuantity := default (minQuantity i) (ch_minQuantity c);
     condition := default (condition i) (ch_condition c);
     inv_location := default (inv_location i) (ch_inv_location c);
     inv_notes := default (inv_notes i) (ch_inv_notes c);
     inv_createdAt := default (inv_createdAt i) (ch_inv_createdAt c);
     inv_updatedAt := default (inv_updatedAt i) (ch_inv_updatedAt c) |}.

Record SettingsChanges := {
  ch_showVsYesterday : option bool;
  ch_showVsLastWeek : option bool;
  ch_showWorkingDays : option bool;
  ch_showProductionComparison : option bool;
  ch_showPurchaseComparison : option bool;
  ch_theme : option Theme;
  ch_language : option Language;
  ch_set_updatedAt : option Timestamp }.

Definition applySettings (c : SettingsChanges) (s : Settings) : Settings :=
  {| showVsYesterday := default (showVsYesterday s) (ch_showVsYesterday c);
     showVsLastWeek := default (showVsLastWeek s) (ch_showVsLastWeek c);
     showWorkingDays := default (showWorkingDays s) (ch_showWorkingDays c);
     showProductionComparison :=
       default (showProductionComparison s) (ch_showProductionComparison c);
     showPurchaseComparison :=
       default (showPurchaseComparison s) (ch_showPurchaseComparison c);
     theme := default (theme s) (ch_theme c);
     language := default (language s) (ch_language c);
     set_updatedAt := default (set_updatedAt s) (ch_set_updatedAt c) |}.

(** ** Settings singleton (src/db/database.ts) *)

(** [getSettings]: the first settings row, or the default object (which has
    no [id]) stamped with the current time. *)
Definition getSettings (now : Timestamp) (db : DB) : option nat * Settings :=
  match Table.first (settings db) with
  | Some (id, s) => (Some id, s)
  | None =>
      (None,
       {| showVsYesterday := true; showVsLastWeek := true; showWorkingDays := true;
          showProductionComparison := true; showPurchaseComparison := true;
          theme := dark; language := fr; set_updatedAt := now |})
  end.

(** [updateSettings]: [{ ...updates, updatedAt: getTimestamp() }] applied to
    the first row when there is one with a truthy [id]. *)
Definition updateSettings (updates : SettingsChanges) (now : Timestamp) (db : DB) : DB :=
  match Table.first (settings db) with
  | Some (id, _) =>
      if negb (Nat.eqb id 0) then
        set_settings
          (Table.update id
             (applySettings
                {| ch_showVsYesterday := ch_showVsYesterday updates;
                   ch_showVsLastWeek := ch_showVsLastWeek updates;
                   ch_showWorkingDays := ch_showWorkingDays updates;
                   ch_showProductionComparison := ch_showProductionComparison updates;
                   ch_showPurchaseComparison := ch_showPurchaseComparison updates;
                   ch_theme := ch_theme updates;
                   ch_language := ch_language updates;
                   ch_set_updatedAt := Some now |})) db
      else db
  | None => db
  end.

(** ** Site switching (App.tsx [handleSiteChange], Settings.tsx
    [handleSetActiveSite]) *)

Definition clearActive : SiteChanges :=
  {| ch_site_name := None; ch_site_location := None;
     ch_isActive := Some false; ch_site_createdAt := None |}.

Definition setActive : SiteChanges :=
  {| ch_site_name := None; ch_site_location := None;
     ch_isActive := Some true; ch_site_createdAt := None |}.

(** [handleSiteChange]: the effect on the database of
    [db.sites.toCollection().modify({isActive: false})] followed by
    [db.sites.update(id, {isActive: true})]; [loadSites] only reads. *)
Definition handleSiteChange (id : nat) (db : DB) : DB :=
  let db1 := set_sites (Table.modify (applySite clearActive)) db in
  set_sites (Table.update id (applySite setActive)) db1.

(** [handleSetActiveSite]: the same two store calls, then [onSiteChange(id)],
    which is [handleSiteChange] (passed as a prop by App.tsx). *)
Definition handleSetActiveSite (id : nat) (db : DB) : DB :=
  let db1 := set_sites (Table.modify (applySite clearActive)) db in
  let db2 := set_sites (Table.update id (applySite setActive)) db1 in
  handleSiteChange id db2.

(** ** Site deletion (Settings.tsx [handleDeleteSite])

    [sitesProp] and [activeSiteId] are the props of the page (the rows App
    loaded last and the active key it holds); [confirmed] is the answer to
    [window.confirm]. *)
Definition handleDeleteSite (sitesProp : list (nat * Site)) (activeSiteId : nat)
    (confirmed : bool) (id : nat) (db : DB) : DB :=
  if Nat.leb (length sitesProp) 1 then db
  else if confirmed then
    let db1 := set_sites (Table.delete id) db in
    let db2 := set_productions (Table.deleteWhere (fun p => Nat.eqb (prod_siteId p) id)) db1 in
    let db3 := set_workers (Table.deleteWhere (fun w => Nat.eqb (wk_siteId w) id)) db2 in
    let db4 := set_inventory (Table.deleteWhere (fun i => Nat.eqb (inv_siteId i) id)) db3 in
    let db5 := set_purchases (Table.deleteWhere (fun p => Nat.eqb (pur_siteId p) id)) db4 in
    let db6 := set_dailyReports (Table.deleteWhere (fun r => Nat.eqb (dr_siteId r) id)) db5 in
    if Nat.eqb id activeSiteId && Nat.ltb 1 (length sitesProp) then
      match List.find (fun s => negb (Nat.eqb s.1 id)) sitesProp with
      | Some remaining =>
          if negb (Nat.eqb remaining.1 0) then handleSiteChange remaining.1 db6 else db6
      | None => db6
      end
    else db6
  else db.

(** [handleSaveSite]: renames the edited site, or adds a new one, active
    only when the page knows of no site yet. *)
Definition handleSaveSite (sitesProp : list (nat * Site)) (editingSite : option (nat * Site))
    (name location : string) (now : Timestamp) (db : DB) : DB :=
  match editingSite with
  | Some (S i, _) =>
      set_sites
        (Table.update (S i)
           (applySite {| ch_site_name := Some name; ch_site_location := Some location;
                         ch_isActive := None; ch_site_createdAt := None |})) db
  | _ =>
      set_sites
        (fun tb => (Table.add {| site_name := name; site_location := location;
                                 isActive := Nat.eqb (length sitesProp) 0;
                                 site_createdAt := now |} tb).2) db
  end.

(** ** Session roles (src/contexts/AuthContext.tsx) *)

Inductive UserRole := admin | supervisor | worker.
Definition ViewMode := UserRole.

Record User := {
  user_id : nat;
  user_firstName : string;
  user_lastName : string;
  email : string;
  user_phone : string;
  role : UserRole;
  avatar : option string;
  user_siteId : nat;
  user_team : string;
  user_createdAt : Timestamp }.

(** The state the provider holds: the stored user and the view mode. *)
Record AuthState := {
  user : option User;
  viewMode : ViewMode }.

Definition setViewMode (mode : ViewMode) (st : AuthState) : AuthState :=
  {| user := user st; viewMode := mode |}.

Definition roleHierarchy (r : UserRole) : Z :=
  match r with
  | admin => 3
  | supervisor => 2
  | worker => 1
  end.

Definition canAccess (st : AuthState) (requiredRole : UserRole) : bool :=
  let currentLevel := roleHierarchy (viewMode st) in
  let requiredLevel := roleHierarchy requiredRole in
  currentLevel >=? requiredLevel.

Definition isAdmin (st : AuthState) : bool :=
  match viewMode st with admin => true | _ => false end.

Definition isSupervisor (st : AuthState) : bool :=
  match viewMode st with supervisor | admin => true | worker => false end.

(** ** Forms and page handlers

    [Number (s)], the ECMAScript conversion that reads the text of a numeric
    input, is a parameter of the handlers. *)

Record PurchaseForm := {
  pf_item : string;
  pf_amount : string;
  pf_currency : string;
  pf_supplier : string;
  pf_category : PurchaseCategory;
  pf_notes : string;
  pf_receiptPhoto : string }.

Record ProductionForm := {
  prf_date : string;
  prf_quantityGrams : string;
  prf_team : string;
  prf_shift : Shift;
  prf_notes : string }.

Record InventoryForm := {
  if_name : string;
  if_category : InventoryCategory;
  if_quantity : string;
  if_unit : string;
  if_minQuantity : string;
  if_condition : Condition;
  if_location : string;
  if_notes : string }.

(** What one look at the clock gives: [formatDate(now)], [formatTime(now)]. *)
Record Now := {
  now_date : string;
  now_time : string }.

(** Truthiness of a string: it is not empty. *)
Definition truthy (s : string) : bool := negb (String.eqb s EmptyString).

(** [a || b] on strings. *)
Definition str_or (a b : string) : string := if truthy a then a else b.

Definition shiftName (s : Shift) : string :=
  match s with
  | morning => "morning"
  | afternoon => "afternoon"
  | night => "night"
  end.

Section Pages.

Variable Number : string -> Q.

(** *** Purchases.tsx [handleSubmit]

    The result is the database and the [receiptError] flag of the page
    after the call.  [tUpdated] and [tCreated] are the two successive
    [getTimestamp()] readings. *)
Definition Purchases_handleSubmit (siteId : nat) (formData : PurchaseForm)
    (editingPurchase : option (nat * Purchase)) (receiptError : bool)
    (now : Now) (tUpdated tCreated : Timestamp) (db : DB) : DB * bool :=
  let editingReceipt :=
    match editingPurchase with Some (_, p) => receiptPhoto p | None => EmptyString end in
  if negb (truthy (pf_receiptPhoto formData)) && negb (truthy editingReceipt)
  then (db, true)
  else
    let photo := str_or (pf_receiptPhoto formData) (str_or editingReceipt EmptyString) in
    match editingPurchase with
    | Some (S i, _) =>
        (set_purchases
           (Table.update (S i)
              (fun old =>
                 {| pur_siteId := siteId;
                    item := pf_item formData;
                    amount := Number (pf_amount formData);
                    currency := pf_currency formData;
                    supplier := pf_supplier formData;
                    pur_category := pf_category formData;
                    receiptPhoto := photo;
                    purchaseDate := now_date now;
                    purchaseTime := now_time now;
                    pur_notes := pf_notes formData;
                    pur_createdAt := pur_createdAt old;
                    pur_updatedAt := tUpdated |})) db,
         false)
    | _ =>
        (set_purchases
           (fun tb =>
              (Table.add
                 {| pur_siteId := siteId;
                    item := pf_item formData;
                    amount := Number (pf_amount formData);
                    currency := pf_currency formData;
                    supplier := pf_supplier formData;
                    pur_category := pf_category formData;
                    receiptPhoto := photo;
                    purchaseDate := now_date now;
                    purchaseTime := now_time now;
                    pur_notes := pf_notes formData;
                    pur_createdAt := tCreated;
                    pur_updatedAt := tUpdated |} tb).2) db,
         false)
    end.

(** *** Production.tsx [handleSubmit] *)
Definition productionData (siteId : nat) (formData : ProductionForm)
    (tUpdated : Timestamp) : ProductionChanges :=
  {| ch_prod_siteId := Some siteId;
     ch_prod_date := Some (prf_date formData);
     ch_quantityGrams := Some (Number (prf_quantityGrams formData));
     ch_prod_team := Some (prf_team formData);
     ch_prod_shift := Some (prf_shift formData);
     ch_prod_notes := Some (prf_notes formData);
     ch_prod_createdAt := None;
     ch_prod_updatedAt := Some tUpdated |}.

Definition Production_handleSubmit (siteId : nat) (formData : ProductionForm)
    (editingProduction : option (nat * Production))
    (tUpdated tCreated : Timestamp) (db : DB) : DB :=
  match editingProduction with
  | Some (S i, _) =>
      set_productions
        (Table.update (S i) (applyProduction (productionData siteId formData tUpdated))) db
  | _ =>
      set_productions
        (fun tb =>
           (Table.add
              {| prod_siteId := siteId;
                 prod_date := prf_date formData;
                 quantityGrams := Number (prf_quantityGrams formData);
                 prod_team := prf_team formData;
                 prod_shift := prf_shift formData;
                 prod_notes := prf_notes formData;
                 prod_createdAt := tCreated;
                 prod_updatedAt := tUpdated |} tb).2) db
  end.

(** *** Inventory.tsx [handleSubmit] *)
Definition itemData (siteId : nat) (formData : InventoryForm)
    (tUpdated : Timestamp) : InventoryChanges :=
  {| ch_inv_siteId := Some siteId;
     ch_inv_name := Some (if_name formData);
     ch_inv_category := Some (if_category formData);
     ch_quantity := Some (Number (if_quantity formData));
     ch_unit := Some (if_unit formData);
     ch_minQuantity := Some (Number (if_minQuantity formData));
     ch_condition := Some (if_condition formData);
     ch_inv_location := Some (if_location formData);
     ch_inv_notes := Some (if_notes formData);
     ch_inv_createdAt := None;
     ch_inv_updatedAt := Some tUpdated |}.

Definition Inventory_handleSubmit (siteId : nat) (formData : InventoryForm)
    (editingItem : option (nat * InventoryItem))
    (tUpdated tCreated : Timestamp) (db : DB) : DB :=
  match editingItem with
  | Some (S i, _) =>
      set_inventory
        (Table.update (S i) (applyInventory (itemData siteId formData tUpdated))) db
  | _ =>
      set_inventory
        (fun tb =>
           (Table.add
              {| inv_siteId := siteId;
                 inv_name := if_name formData;
                 inv_category := if_category formData;
                 quantity := Number (if_quantity formData);
                 unit_ := if_unit formData;
                 minQuantity := Number (if_minQuantity formData);
                 condition := if_condition formData;
                 inv_location := if_location formData;
                 inv_notes := if_notes formData;
                 inv_createdAt := tCreated;
                 inv_updatedAt := tUpdated |} tb).2) db
  end.

End Pages.

(** ** Inventory page: low stock (Inventory.tsx) *)

Definition isLowStock (item : InventoryItem) : bool :=
  JS.le (quantity item) (minQuantity item).

(** [inventory.filter(isLowStock).length] over the rows the page holds. *)
Definition lowStockCount (inventoryRows : list (nat * InventoryItem)) : nat :=
  length (List.filter (fun kr => isLowStock kr.2) inventoryRows).

(** ** Reports (src/pages/Reports.tsx) *)

Record DateRange := {
  range_start : string;
  range_end : string }.

Record ReportData := {
  totalProduction : Q;
  productionByTeam : gmap string Q;
  productionByShift : gmap string Q;
  activeWorkers : nat;
  totalWorkers : nat;
  inventoryValue : nat;
  lowStockItems : nat;
  dailyAverage : option Z }.

(** [p.date >= dateRange.start && p.date <= dateRange.end]. *)
Definition inRange (dateRange : DateRange) (p : Production) : bool :=
  JS.str_ge (prod_date p) (range_start dateRange)
  && JS.str_le (prod_date p) (range_end dateRange).

(** [obj[key] = (obj[key] || 0) + amount]. *)
Definition addTo (key : string) (amount : Q) (obj : gmap string Q) : gmap string Q :=
  <[key := (default 0%Q (obj !! key) + amount)%Q]> obj.

(** [Math.max(1, Math.ceil((end.getTime() - start.getTime()) / msPerDay))];
    [None] when either date is invalid. *)
Definition daysDiff (dateRange : DateRange) : option Z :=
  tEnd ← Date.getTime (range_end dateRange);
  tStart ← Date.getTime (range_start dateRange);
  Some (Z.max 1 (JS.ceil (inject_Z (tEnd - tStart) / inject_Z Date.msPerDay)%Q)).

(** [Math.round(totalProduction / daysDiff)]. *)
Definition computeDailyAverage (total : Q) (dateRange : DateRange) : option Z :=
  d ← daysDiff dateRange;
  Some (JS.round (total / inject_Z d)%Q).

Definition generateReport (dateRange : DateRange) (db : DB) : ReportData :=
  let productionRows := Table.toArray (productions db) in
  let workerRows := Table.toArray (workers db) in
  let inventoryRows := Table.toArray (inventory db) in
  let filteredProductions :=
    List.filter (fun kr => inRange dateRange kr.2) productionRows in
  let total :=
    fold_left (fun sum kr => (sum + quantityGrams kr.2)%Q) filteredProductions 0%Q in
  let byTeam :=
    fold_left (fun acc kr => addTo (prod_team kr.2) (quantityGrams kr.2) acc)
      filteredProductions ∅ in
  let byShift :=
    fold_left (fun acc kr => addTo (shiftName (prod_shift kr.2)) (quantityGrams kr.2) acc)
      filteredProductions ∅ in
  {| totalProduction := total;
     productionByTeam := byTeam;
     productionByShift := byShift;
     activeWorkers :=
       length (List.filter
                 (fun kr => match wk_status kr.2 with active => true | _ => false end)
                 workerRows);
     totalWorkers := length workerRows;
     inventoryValue := length inventoryRows;
     lowStockItems :=
       length (List.filter
                 (fun kr => JS.le (quantity kr.2) (minQuantity kr.2)) inventoryRows);
     dailyAverage := computeDailyAverage total dateRange |}.

Definition getPercentage (value total : Q) : Z :=
  if JS.gt total 0 then JS.round ((value / total) * 100)%Q else 0.

(** The line separator of the export. *)
Definition newline : string := String (ascii_of_nat 10) EmptyString.

Section CsvExport.

Variable numberToString : Q -> string.

Definition headers : list string :=
  ["Date"; "Quantité (g)"; "Équipe"; "Quart"; "Notes"].

(** One row of cells, numbers already printed as [join] prints them. *)
Definition csvRow (p : Production) : list string :=
  [prod_date p; numberToString (quantityGrams p); prod_team p;
   shiftName (prod_shift p); prod_notes p].

(** [exportCSV]: the text handed to the download. *)
Definition exportCSV (dateRange : DateRange) (db : DB) : string :=
  let productionRows := Table.filterToArray (inRange dateRange) (productions db) in
  let rows := List.map (fun kr => csvRow kr.2) productionRows in
  String.concat newline
    (String.concat "," headers :: List.map (fun row => String.concat "," row) rows).

End CsvExport.

(** ** Vocabulary of the properties *)

(** The number of sites whose [isActive] flag is set. *)
Definition activeCount (tb : Table.t Site) : nat :=
  length (List.filter (fun kr => isActive kr.2) (Table.toArray tb)).

(** A site with its [isActive] flag replaced, everything else kept. *)
Definition markActive (flag : bool) (s : Site) : Site :=
  {| site_name := site_name s; site_location := site_location s;
     isActive := flag; site_createdAt := site_createdAt s |}.

(** The two ways of activating a site: the button of the settings page and
    the site menu of the application shell. *)
Inductive ActivateOp :=
| FromSettingsPage (id : nat)
| FromSiteMenu (id : nat).

Definition activate (db : DB) (op : ActivateOp) : DB :=
  match op with
  | FromSettingsPage id => handleSetActiveSite id db
  | FromSiteMenu id => handleSiteChange id db
  end.

Definition activateAll (ops : list ActivateOp) (db : DB) : DB :=
  fold_left activate ops db.

(** [after] holds exactly the rows of [before] that belong to another site
    than [id], each under its key and unchanged. *)
Definition survivors {A : Type} (siteIdOf : A -> nat) (id : nat)
    (before after : Table.t A) : Prop :=
  forall key row,
    Table.get key after = Some row
    <-> Table.get key before = Some row /\ siteIdOf row <> id.

(** What the cascade of [handleDeleteSite] leaves, before the active site is
    moved: the five tables that carry a [siteId] lose the rows of the site. *)
Definition cascade (id : nat) (db : DB) : DB :=
  set_dailyReports (Table.deleteWhere (fun r => Nat.eqb (dr_siteId r) id))
    (set_purchases (Table.deleteWhere (fun p => Nat.eqb (pur_siteId p) id))
       (set_inventory (Table.deleteWhere (fun i => Nat.eqb (inv_siteId i) id))
          (set_workers (Table.deleteWhere (fun w => Nat.eqb (wk_siteId w) id))
             (set_productions (Table.deleteWhere (fun p => Nat.eqb (prod_siteId p) id))
                (set_sites (Table.delete id) db))))).



(** A month of the year and a day of that month. *)
Definition validYMD (y m d : Z) : Prop :=
  1 <= m <= 12 /\ 1 <= d <= Date.DaysInMonth y m.

(** ** Sample data for the worked examples *)

(** A reading of unsigned decimal integers, standing for [Number] where an
    example needs a concrete conversion. *)
Fixpoint readDigits (acc : Z) (s : string) : Z :=
  match s with
  | EmptyString => acc
  | String c rest =>
      match Date.digit c with
      | Some d => readDigits (10 * acc + d) rest
      | None => acc
      end
  end.

Definition sampleNumber (s : string) : Q := inject_Z (readDigits 0 s).

(** A printing of integer-valued numbers, standing for [numberToString]. *)
Definition digitChar (d : Z) : ascii := ascii_of_nat (48 + Z.to_nat d).

Fixpoint printDigits (fuel : nat) (n : Z) (acc : string) : string :=
  match fuel with
  | O => acc
  | S fuel' =>
      let acc' := String (digitChar (n mod 10)) acc in
      if n / 10 =? 0 then acc' else printDigits fuel' (n / 10) acc'
  end.

Definition sampleNumberToString (q : Q) : string :=
  printDigits 20 (Qfloor q) EmptyString.

Definition january : DateRange :=
  {| range_start := "2024-01-01"; range_end := "2024-01-03" |}.

Definition siteA : Site :=
  {| site_name := "Site Kolwezi"; site_location := "Kolwezi, Lualaba";
     isActive := true; site_createdAt := 1000 |}.

Definition siteB : Site :=
  {| site_name := "Site Likasi"; site_location := "Likasi";
     isActive := false; site_createdAt := 2000 |}.

Definition sampleProduction (siteId : nat) (date notes : string) (grams : Q) : Production :=
  {| prod_siteId := siteId; prod_date := date; quantityGrams := grams;
     prod_team := "A"; prod_shift := morning; prod_notes := notes;
     prod_createdAt := 1000; prod_updatedAt := 1000 |}.

Definition sampleItem (siteId : nat) (q m : Q) : InventoryItem :=
  {| inv_siteId := siteId; inv_name := "Casques"; inv_category := inv_safety;
     quantity := q; unit_ := "pieces"; minQuantity := m; condition := good;
     inv_location := "Vestiaire"; inv_notes := EmptyString;
     inv_createdAt := 1000; inv_updatedAt := 1000 |}.

Definition sampleWorker (siteId : nat) : Worker :=
  {| wk_siteId := siteId; firstName := "Jean"; lastName := "Kabongo";
     wk_role := "Mineur"; wk_phone := EmptyString; wk_team := "A"; wk_status := active;
     hireDate := "2023-01-15"; wk_createdAt := 1000; wk_updatedAt := 1000 |}.

Definition samplePurchase (siteId : nat) : Purchase :=
  {| pur_siteId := siteId; item := "Gants"; amount := 12; currency := "USD";
     supplier := "Depot"; pur_category := pur_consumables;
     receiptPhoto := "data:image/png;base64,AAAA";
     purchaseDate := "2024-01-02"; purchaseTime := "10:30"; pur_notes := EmptyString;
     pur_createdAt := 1000; pur_updatedAt := 1000 |}.

Definition sampleReport (siteId : nat) : DailyReport :=
  {| dr_siteId := siteId; dr_date := "2024-01-02"; summary := "RAS";
     incidents := EmptyString; observations := EmptyString; photos := [];
     productionTotal := 250; workersPresent := 3;
     dr_createdAt := 1000; dr_updatedAt := 1000 |}.

Definition sampleSettings : Settings :=
  {| showVsYesterday := true; showVsLastWeek := false; showWorkingDays := true;
     showProductionComparison := true; showPurchaseComparison := true;
     theme := light; language := en; set_updatedAt := 1000 |}.

(** Two sites, the first one active, with rows of both in every table. *)
Definition sampleDB : DB :=
  {| sites := [Some siteA; Some siteB];
     productions :=
       [Some (sampleProduction 1 "2024-01-01" EmptyString 400);
        Some (sampleProduction 2 "2024-01-02" "pluie, arret" 250);
        Some (sampleProduction 1 "2024-02-10" EmptyString 300)];
     workers := [Some (sampleWorker 1); Some (sampleWorker 2)];
     inventory := [Some (sampleItem 1 5 5); Some (sampleItem 2 6 5)];
     purchases := [Some (samplePurchase 2); Some (samplePurchase 1)];
     dailyReports := [Some (sampleReport 1); Some (sampleReport 2)];
     settings := [Some sampleSettings] |}.

Definition sampleSitesProp : list (nat * Site) := Table.toArray (sites sampleDB).

Definition samplePurchaseForm (photo : string) : PurchaseForm :=
  {| pf_item := "Gants"; pf_amount := "12"; pf_currency := "USD";
     pf_supplier := "Depot"; pf_category := pur_consumables; pf_notes := EmptyString;
     pf_receiptPhoto := photo |}.

Definition sampleProductionForm (grams notes : string) : ProductionForm :=
  {| prf_date := "2024-01-02"; prf_quantityGrams := grams; prf_team := "A";
     prf_shift := night; prf_notes := notes |}.

Definition sampleInventoryForm (q m : string) : InventoryForm :=
  {| if_name := "Casques"; if_category := inv_safety; if_quantity := q;
     if_unit := "pieces"; if_minQuantity := m; if_condition := fair;
     if_location := "Vestiaire"; if_notes := EmptyString |}.

Definition sampleNow : Now := {| now_date := "2024-01-02"; now_time := "10:30" |}.

(** ** Further handlers of the pages *)

(** *** Deleting one row ([handleDelete] of the production, inventory,
    workers and purchases pages): [confirmed] is the answer to
    [window.confirm]. *)
Definition Production_handleDelete (confirmed : bool) (id : nat) (db : DB) : DB :=
  if confirmed then set_productions (Table.delete id) db else db.

Definition Inventory_handleDelete (confirmed : bool) (id : nat) (db : DB) : DB :=
  if confirmed then set_inventory (Table.delete id) db else db.

Definition Workers_handleDelete (confirmed : bool) (id : nat) (db : DB) : DB :=
  if confirmed then set_workers (Table.delete id) db else db.

Definition Purchases_handleDelete (confirmed : bool) (id : nat) (db : DB) : DB :=
  if confirmed then set_purchases (Table.delete id) db else db.

(** *** Workers.tsx [handleSubmit] *)

Record WorkerForm := {
  wf_firstName : string;
  wf_lastName : string;
  wf_role : string;
  wf_phone : string;
  wf_team : string;
  wf_status : WorkerStatus;
  wf_hireDate : string }.

Record WorkerChanges := {
  ch_wk_siteId : option nat;
  ch_firstName : option string;
  ch_lastName : option string;
  ch_wk_role : option string;
  ch_wk_phone : option string;
  ch_wk_team : option string;
  ch_wk_status : option WorkerStatus;
  ch_hireDate : option string;
  ch_wk_createdAt : option Timestamp;
  ch_wk_updatedAt : option Timestamp }.

Definition applyWorker (c : WorkerChanges) (w : Worker) : Worker :=
  {| wk_siteId := default (wk_siteId w) (ch_wk_siteId c);
     firstName := default (firstName w) (ch_firstName c);
     lastName := default (lastName w) (ch_lastName c);
     wk_role := default (wk_role w) (ch_wk_role c);
     wk_phone := default (wk_phone w) (ch_wk_phone c);
     wk_team := default (wk_team w) (ch_wk_team c);
     wk_status := default (wk_status w) (ch_wk_status c);
     hireDate := default (hireDate w) (ch_hireDate c);
     wk_createdAt := default (wk_createdAt w) (ch_wk_createdAt c);
     wk_updatedAt := default (wk_updatedAt w) (ch_wk_updatedAt c) |}.

(** [{ siteId, ...formData, updatedAt: getTimestamp() }]. *)
Definition workerData (siteId : nat) (formData : WorkerForm)
    (tUpdated : Timestamp) : WorkerChanges :=
  {| ch_wk_siteId := Some siteId;
     ch_firstName := Some (wf_firstName formData);
     ch_lastName := Some (wf_lastName formData);
     ch_wk_role := Some (wf_role formData);
     ch_wk_phone := Some (wf_phone formData);
     ch_wk_team := Some (wf_team formData);
     ch_wk_status := Some (wf_status formData);
     ch_hireDate := Some (wf_hireDate formData);
     ch_wk_createdAt := None;
     ch_wk_updatedAt := Some tUpdated |}.

Definition Workers_handleSubmit (siteId : nat) (formData : WorkerForm)
    (editingWorker : option (nat * Worker))
    (tUpdated tCreated : Timestamp) (db : DB) : DB :=
  match editingWorker with
  | Some (S i, _) =>
      set_workers
        (Table.update (S i) (applyWorker (workerData siteId formData tUpdated))) db
  | _ =>
      set_workers
        (fun tb =>
           (Table.add
              {| wk_siteId := siteId;
                 firstName := wf_firstName formData;
                 lastName := wf_lastName formData;
                 wk_role := wf_role formData;
                 wk_phone := wf_phone formData;
                 wk_team := wf_team formData;
                 wk_status := wf_status formData;
                 hireDate := wf_hireDate formData;
                 wk_createdAt := tCreated;
                 wk_updatedAt := tUpdated |} tb).2) db
  end.

(** [handleToggle] of the settings page: the store call of
    [updateSettings({ [key]: value })]. *)
Inductive Toggle :=
| tg_showVsYesterday | tg_showVsLastWeek | tg_showWorkingDays
| tg_showProductionComparison | tg_showPurchaseComparison.

Definition toggleChanges (key : Toggle) (value : bool) : SettingsChanges :=
  {| ch_showVsYesterday :=
       match key with tg_showVsYesterday => Some value | _ => None end;
     ch_showVsLastWeek :=
       match key with tg_showVsLastWeek => Some value | _ => None end;
     ch_showWorkingDays :=
       match key with tg_showWorkingDays => Some value | _ => None end;
     ch_showProductionComparison :=
       match key with tg_showProductionComparison => Some value | _ => None end;
     ch_showPurchaseComparison :=
       match key with tg_showPurchaseComparison => Some value | _ => None end;
     ch_theme := None; ch_language := None; ch_set_updatedAt := None |}.

Definition handleToggle (key : Toggle) (value : bool) (now : Timestamp) (db : DB) : DB :=
  updateSettings (toggleChanges key value) now db.

(** *** Vocabulary for the report *)

(** [rows.reduce((sum, p) => sum + p.quantityGrams, 0)]. *)
Definition sumGrams (rows : list (nat * Production)) : Q :=
  fold_left (fun sum kr => (sum + quantityGrams kr.2)%Q) rows 0%Q.

(** The productions the report keeps for a range, in key order. *)
Definition filteredProductions (dateRange : DateRange) (db : DB) : list (nat * Production) :=
  List.filter (fun kr : nat * Production => inRange dateRange kr.2)
    (Table.toArray (productions db)).

(** ** Dashboard (src/pages/Dashboard.tsx) *)

Record Stats := {
  todayProduction : Q;
  yesterdayProduction : Q;
  weekProduction : Q;
  lastWeekProduction : Q;
  monthProduction : Q;
  stat_activeWorkers : nat;
  todayPurchases : Q;
  yesterdayPurchases : Q;
  workingDaysThisMonth : nat;
  dailyTarget : Q }.

(** [rows.reduce((s, p) => s + p.amount, 0)]. *)
Definition sumAmounts (rows : list (nat * Purchase)) : Q :=
  fold_left (fun s kr => (s + amount kr.2)%Q) rows 0%Q.

(** [new Date(p.date) >= t] and [new Date(p.date) < t] for a time [t] in
    milliseconds; an invalid date compares false both ways. *)
Definition dateGe (date : string) (t : Z) : bool :=
  match Date.getTime date with Some d => t <=? d | None => false end.

Definition dateLt (date : string) (t : Z) : bool :=
  match Date.getTime date with Some d => d <? t | None => false end.

(** What [loadData] reads off the clock: [formatDate()], [getYesterdayDate()],
    [getMonthStart()] and the two times seven and fourteen days back. *)
Record DashboardClock := {
  clk_today : string;
  clk_yesterday : string;
  clk_monthStart : string;
  clk_weekAgo : Z;
  clk_twoWeeksAgo : Z }.

(** [loadData]: the settings and the statistics of one site. *)
Definition loadData (siteId : nat) (clk : DashboardClock) (now : Timestamp) (db : DB)
    : (option nat * Settings) * Stats :=
  let settingsData := getSettings now db in
  let productionRows :=
    Table.filterToArray (fun p => Nat.eqb (prod_siteId p) siteId) (productions db) in
  let workerRows :=
    Table.filterToArray (fun w => Nat.eqb (wk_siteId w) siteId) (workers db) in
  let purchaseRows :=
    Table.filterToArray (fun p => Nat.eqb (pur_siteId p) siteId) (purchases db) in
  let todayProd :=
    sumGrams (List.filter (fun kr => String.eqb (prod_date kr.2) (clk_today clk))
                productionRows) in
  let yesterdayProd :=
    sumGrams (List.filter (fun kr => String.eqb (prod_date kr.2) (clk_yesterday clk))
                productionRows) in
  let weekProd :=
    sumGrams (List.filter (fun kr => dateGe (prod_date kr.2) (clk_weekAgo clk))
                productionRows) in
  let lastWeekProd :=
    sumGrams (List.filter
                (fun kr => dateGe (prod_date kr.2) (clk_twoWeeksAgo clk)
                           && dateLt (prod_date kr.2) (clk_weekAgo clk))
                productionRows) in
  let monthRows :=
    List.filter (fun kr : nat * Production =>
                   JS.str_ge (prod_date kr.2) (clk_monthStart clk)) productionRows in
  let monthProd := sumGrams monthRows in
  let uniqueDays : gset string := list_to_set (List.map (fun kr => prod_date kr.2) monthRows) in
  let todayPurch :=
    sumAmounts (List.filter (fun kr => String.eqb (purchaseDate kr.2) (clk_today clk))
                  purchaseRows) in
  let yesterdayPurch :=
    sumAmounts (List.filter (fun kr => String.eqb (purchaseDate kr.2) (clk_yesterday clk))
                  purchaseRows) in
  let activeN :=
    length (List.filter
              (fun kr : nat * Worker =>
                 match wk_status kr.2 with active => true | _ => false end)
              workerRows) in
  (settingsData,
   {| todayProduction := todayProd; yesterdayProduction := yesterdayProd;
      weekProduction := weekProd; lastWeekProduction := lastWeekProd;
      monthProduction := monthProd; stat_activeWorkers := activeN;
      todayPurchases := todayPurch; yesterdayPurchases := yesterdayPurch;
      workingDaysThisMonth := size uniqueDays; dailyTarget := 300 |}).




(** ** Session: loading and updating the user (AuthContext.tsx, Profile.tsx)

    The entry [mineOrUser] of the local storage holds the user as JSON; it
    is modelled by the user it encodes, [None] when the entry is absent. *)

Record AuthStore := {
  auth : AuthState;
  savedUser : option User }.

Record UserChanges := {
  ch_user_id : option nat;
  ch_user_firstName : option string;
  ch_user_lastName : option string;
  ch_email : option string;
  ch_user_phone : option string;
  ch_role : option UserRole;
  ch_avatar : option string;
  ch_user_siteId : option nat;
  ch_user_team : option string;
  ch_user_createdAt : option Timestamp }.

(** [{ ...user, ...updates }]. *)
Definition applyUser (c : UserChanges) (u : User) : User :=
  {| user_id := default (user_id u) (ch_user_id c);
     user_firstName := default (user_firstName u) (ch_user_firstName c);
     user_lastName := default (user_lastName u) (ch_user_lastName c);
     email := default (email u) (ch_email c);
     user_phone := default (user_phone u) (ch_user_phone c);
     role := default (role u) (ch_role c);
     avatar := match ch_avatar c with Some a => Some a | None => avatar u end;
     user_siteId := default (user_siteId u) (ch_user_siteId c);
     user_team := default (user_team u) (ch_user_team c);
     user_createdAt := default (user_createdAt u) (ch_user_createdAt c) |}.

(** [loadUser]: the saved user when there is one, the default administrator
    otherwise (attached to the first site, or to 1), who is then saved. *)
Definition loadUser (now : Timestamp) (db : DB) (st : AuthStore) : AuthStore :=
  match savedUser st with
  | Some parsed =>
      {| auth := {| user := Some parsed; viewMode := role parsed |};
         savedUser := savedUser st |}
  | None =>
      let site := Table.first (sites db) in
      let defaultUser :=
        {| user_id := 1;
           user_firstName := "Administrateur";
           user_lastName := "Principal";
           email := "admin@mineor.cd";
           user_phone := "+243 812 345 678";
           role := admin;
           avatar := None;
           user_siteId :=
             match site with
             | Some (S k, _) => S k
             | _ => 1
             end;
           user_team := "Direction";
           user_createdAt := now |} in
      {| auth := {| user := Some defaultUser; viewMode := admin |};
         savedUser := Some defaultUser |}
  end.

Definition updateUser (updates : UserChanges) (st : AuthStore) : AuthStore :=
  match user (auth st) with
  | Some u =>
      let updated := applyUser updates u in
      {| auth := {| user := Some updated; viewMode := viewMode (auth st) |};
         savedUser := Some updated |}
  | None => st
  end.

(** [const isWorker = true]. *)
Definition isWorker (st : AuthState) : bool := true.

(** The form of the profile page and its [handleSaveProfile]. *)
Record ProfileForm := {
  pr_firstName : string;
  pr_lastName : string;
  pr_email : string;
  pr_phone : string }.

Definition handleSaveProfile (formData : ProfileForm) (st : AuthStore) : AuthStore :=
  updateUser
    {| ch_user_id := None;
       ch_user_firstName := Some (pr_firstName formData);
       ch_user_lastName := Some (pr_lastName formData);
       ch_email := Some (pr_email formData);
       ch_user_phone := Some (pr_phone formData);
       ch_role := None; ch_avatar := None; ch_user_siteId := None;
       ch_user_team := None; ch_user_createdAt := None |} st.

(** A click on an item of the role switch of the profile page.  The page
    renders nothing without a user, and the switch only for a user whose
    stored role is admin; otherwise there is no item to click. *)
Definition roleSwitchClick (mode : ViewMode) (st : AuthStore) : AuthStore :=
  match user (auth st) with
  | Some u =>
      match role u with
      | admin => {| auth := setViewMode mode (auth st); savedUser := savedUser st |}
      | _ => st
      end
  | None => st
  end.

(** What can happen to the session from the pages. *)
Inductive SessionOp :=
| OpLoadUser (now : Timestamp) (db : DB)
| OpSaveProfile (formData : ProfileForm)
| OpRoleSwitch (mode : ViewMode).

Definition sessionStep (st : AuthStore) (op : SessionOp) : AuthStore :=
  match op with
  | OpLoadUser now db => loadUser now db st
  | OpSaveProfile formData => handleSaveProfile formData st
  | OpRoleSwitch mode => roleSwitchClick mode st
  end.

(** What holds of the session once the user is loaded: the user shown is
    the user saved, and the view mode is the stored role unless that role
    is admin. *)
Definition sessionInvariant (st : AuthStore) : Prop :=
  exists u, user (auth st) = Some u
            /\ savedUser st = Some u
            /\ (role u = admin \/ viewMode (auth st) = role u).

(** ** Navigation (App.tsx) *)

Inductive Page :=
| pg_dashboard | pg_production | pg_workers | pg_inventory | pg_purchases
| pg_reports | pg_settings | pg_profile | pg_attendance.

(** The component that [renderPage] returns. *)
Inductive View :=
| SkeletonView | DashboardView | ProductionView | WorkersView | InventoryView
| PurchasesView | DailyReportsView | SettingsView | ProfileView | AttendanceView.

Definition renderPage (isInitialized : bool) (activeSiteId : nat) (currentPage : Page)
    (st : AuthState) : View :=
  if negb isInitialized || Nat.eqb activeSiteId 0 then SkeletonView
  else
    match currentPage with
    | pg_dashboard => DashboardView
    | pg_production => ProductionView
    | pg_workers => if isSupervisor st then WorkersView else DashboardView
    | pg_inventory => if isSupervisor st then InventoryView else DashboardView
    | pg_purchases => if isSupervisor st then PurchasesView else DashboardView
    | pg_reports => if isSupervisor st then DailyReportsView else DashboardView
    | pg_settings => if isAdmin st then SettingsView else DashboardView
    | pg_profile => ProfileView
    | pg_attendance => AttendanceView
    end.

(** The page ids of the bottom navigation, in order. *)
Definition getNavItems (st : AuthState) : list Page :=
  let base := [pg_dashboard; pg_attendance; pg_production] in
  if isSupervisor st then base ++ [pg_reports; pg_purchases]
  else base ++ [pg_profile].

(** The page ids of the sidebar, in order. *)
Definition getSidebarItems (st : AuthState) : list Page :=
  let items := [pg_dashboard; pg_attendance; pg_production] in
  let items :=
    if isSupervisor st
    then items ++ [pg_workers; pg_inventory; pg_reports; pg_purchases]
    else items in
  let items := if isAdmin st then items ++ [pg_settings] else items in
  items ++ [pg_profile].

(** The view a page id stands for. *)
Definition viewOf (p : Page) : View :=
  match p with
  | pg_dashboard => DashboardView
  | pg_production => ProductionView
  | pg_workers => WorkersView
  | pg_inventory => InventoryView
  | pg_purchases => PurchasesView
  | pg_reports => DailyReportsView
  | pg_settings => SettingsView
  | pg_profile => ProfileView
  | pg_attendance => AttendanceView
  end.

(** ** Attendance (src/pages/Attendance.tsx)

    The records of a site and a day are kept in the local storage under
    the key [attendance_<siteId>_<date>], modelled by the pair. *)

Inductive AttendanceStatus := att_present | att_absent | att_late | att_left_early.

Record AttendanceRecord := {
  att_id : Z;
  att_siteId : nat;
  att_date : string;
  checkIn : string;
  checkOut : option string;
  workerId : nat;
  workerName : string;
  att_status : AttendanceStatus }.

Record AttendancePage := {
  todayRecords : list AttendanceRecord;
  isCheckedIn : bool;
  checkInTime : option string;
  attendanceStorage : gmap (nat * string) (list AttendanceRecord) }.

(** What the handlers read off [currentTime] and the clock: the time as
    "HH:MM", the hour, [Date.now()] and [formatDate()]. *)
Record AttendanceClock := {
  ac_time : string;
  ac_hours : Z;
  ac_nowMs : Z;
  ac_today : string }.

(** [r.workerId === user?.id]: never true without a user. *)
Definition isOf (u : option User) (r : AttendanceRecord) : bool :=
  match u with
  | Some usr => Nat.eqb (workerId r) (user_id usr)
  | None => false
  end.

(** [!record.checkOut]. *)
Definition isOpen (r : AttendanceRecord) : bool :=
  match checkOut r with
  | Some t => negb (truthy t)
  | None => true
  end.

Definition loadTodayAttendance (siteId : nat) (today : string) (u : option User)
    (pg : AttendancePage) : AttendancePage :=
  match attendanceStorage pg !! (siteId, today) with
  | Some records =>
      match List.find (isOf u) records with
      | Some myRecord =>
          {| todayRecords := records;
             isCheckedIn := isOpen myRecord;
             checkInTime := Some (checkIn myRecord);
             attendanceStorage := attendanceStorage pg |}
      | None =>
          {| todayRecords := records;
             isCheckedIn := isCheckedIn pg;
             checkInTime := checkInTime pg;
             attendanceStorage := attendanceStorage pg |}
      end
  | None => pg
  end.

Definition handleCheckIn (siteId : nat) (clk : AttendanceClock) (u : option User)
    (pg : AttendancePage) : AttendancePage :=
  let newRecord :=
    {| att_id := ac_nowMs clk;
       att_siteId := siteId;
       att_date := ac_today clk;
       checkIn := ac_time clk;
       checkOut := None;
       workerId := match u with Some usr => user_id usr | None => 0 end;
       workerName :=
         match u with
         | Some usr => user_firstName usr +:+ " " +:+ user_lastName usr
         | None => "undefined undefined"
         end;
       att_status := if 9 <=? ac_hours clk then att_late else att_present |} in
  let updatedRecords := todayRecords pg ++ [newRecord] in
  {| todayRecords := updatedRecords;
     isCheckedIn := true;
     checkInTime := Some (ac_time clk);
     attendanceStorage := <[(siteId, ac_today clk) := updatedRecords]> (attendanceStorage pg) |}.

Definition handleCheckOut (siteId : nat) (clk : AttendanceClock) (u : option User)
    (pg : AttendancePage) : AttendancePage :=
  let updatedRecords :=
    List.map
      (fun record =>
         if isOf u record && isOpen record
         then {| att_id := att_id record; att_siteId := att_siteId record;
                 att_date := att_date record; checkIn := checkIn record;
                 checkOut := Some (ac_time clk);
                 workerId := workerId record; workerName := workerName record;
                 att_status := att_status record |}
         else record)
      (todayRecords pg) in
  {| todayRecords := updatedRecords;
     isCheckedIn := false;
     checkInTime := checkInTime pg;
     attendanceStorage := <[(siteId, ac_today clk) := updatedRecords]> (attendanceStorage pg) |}.

(** ** Seeding the store ([seedDatabase], src/db/database.ts)

    What the function draws from outside: the successive readings of
    [getTimestamp()], the text [formatDate] gives for the day [i] days
    back, and the successive values of [Math.random()]. *)

Record SeedInputs := {
  seed_clock : nat -> Timestamp;
  seed_date : nat -> string;
  seed_random : nat -> Q }.

(** [table.count()]. *)
Definition countRows {A : Type} (tb : Table.t A) : nat := length (Table.toArray tb).

(** [table.bulkAdd(rows)]. *)
Definition bulkAdd {A : Type} (rows : list A) (tb : Table.t A) : Table.t A :=
  fold_left (fun acc row => (Table.add row acc).2) rows tb.

(** [['morning', 'afternoon', 'night'][i]] for the indices that
    [Math.floor(Math.random() * 3)] can give, which are 0, 1 and 2. *)
Definition shiftAt (i : Z) : Shift :=
  match i with
  | 0 => morning
  | 1 => afternoon
  | _ => night
  end.

Definition seedWorker (siteId : nat) (first last role phone team hire : string)
    (created updated : Timestamp) : Worker :=
  {| wk_siteId := siteId; firstName := first; lastName := last; wk_role := role;
     wk_phone := phone; wk_team := team; wk_status := active; hireDate := hire;
     wk_createdAt := created; wk_updatedAt := updated |}.

(** The sample production of the day [i] days back. *)
Definition seedProduction (inp : SeedInputs) (siteId : nat) (i : nat) : Production :=
  {| prod_siteId := siteId;
     prod_date := seed_date inp i;
     quantityGrams := inject_Z (Qfloor (seed_random inp (2 * i) * 300)%Q + 100);
     prod_team := if Nat.eqb (i mod 2) 0 then "Équipe A" else "Équipe B";
     prod_shift := shiftAt (Qfloor (seed_random inp (2 * i + 1) * 3)%Q);
     prod_notes := EmptyString;
     prod_createdAt := seed_clock inp (8 + 2 * i);
     prod_updatedAt := seed_clock inp (9 + 2 * i) |}.

Definition seedDatabase (inp : SeedInputs) (db : DB) : DB :=
  let sitesCount := countRows (sites db) in
  if Nat.eqb sitesCount 0 then
    let added :=
      Table.add {| site_name := "Site Kolwezi"; site_location := "Kolwezi, Lualaba";
                   isActive := true; site_createdAt := seed_clock inp 0 |} (sites db) in
    let siteId := added.1 in
    {| sites := added.2;
       settings :=
         (Table.add
            {| showVsYesterday := true; showVsLastWeek := true; showWorkingDays := true;
               showProductionComparison := true; showPurchaseComparison := true;
               theme := dark; language := fr; set_updatedAt := seed_clock inp 1 |}
            (settings db)).2;
       workers :=
         bulkAdd
           [seedWorker siteId "Jean" "Kabongo" "Chef d'équipe" "+243 812 345 678"
              "Équipe A" "2023-01-15" (seed_clock inp 2) (seed_clock inp 3);
            seedWorker siteId "Marie" "Mutombo" "Opératrice" "+243 823 456 789"
              "Équipe A" "2023-03-20" (seed_clock inp 4) (seed_clock inp 5);
            seedWorker siteId "Pierre" "Tshisekedi" "Mineur" "+243 834 567 890"
              "Équipe B" "2022-11-10" (seed_clock inp 6) (seed_clock inp 7)]
           (workers db);
       productions :=
         fold_left (fun tb i => (Table.add (seedProduction inp siteId i) tb).2)
           (seq 0 14) (productions db);
       inventory :=
         bulkAdd
           [{| inv_siteId := siteId; inv_name := "Foreuse hydraulique";
               inv_category := inv_equipment; quantity := 3; unit_ := "unité";
               minQuantity := 2; condition := good; inv_location := "Entrepôt";
               inv_notes := EmptyString;
               inv_createdAt := seed_clock inp 36; inv_updatedAt := seed_clock inp 37 |};
            {| inv_siteId := siteId; inv_name := "Casques de sécurité";
               inv_category := inv_safety; quantity := 25; unit_ := "pièces";
               minQuantity := 20; condition := good; inv_location := "Vestiaire";
               inv_notes := EmptyString;
               inv_createdAt := seed_clock inp 38; inv_updatedAt := seed_clock inp 39 |}]
           (inventory db);
       purchases := purchases db;
       dailyReports := dailyReports db |}
  else db.

(** ** Application shell: loading the sites (App.tsx) *)

Record AppState := {
  app_sites : list (nat * Site);
  app_activeSiteId : nat;
  app_isInitialized : bool }.

(** [loadSites]: reads all sites and adopts the key of the first active one,
    when there is one with a truthy key. *)
Definition loadSites (db : DB) (app : AppState) : AppState :=
  let allSites := Table.toArray (sites db) in
  match List.find (fun kr : nat * Site => isActive kr.2) allSites with
  | Some (S k, _) =>
      {| app_sites := allSites; app_activeSiteId := S k;
         app_isInitialized := app_isInitialized app |}
  | _ =>
      {| app_sites := allSites; app_activeSiteId := app_activeSiteId app;
         app_isInitialized := app_isInitialized app |}
  end.

(** [handleSiteChange] with what it does to the state of the shell:
    [setActiveSiteId(id)], then [loadSites()]. *)
Definition App_handleSiteChange (id : nat) (db : DB) (app : AppState) : DB * AppState :=
  let db' := handleSiteChange id db in
  (db',
   loadSites db'
     {| app_sites := app_sites app; app_activeSiteId := id;
        app_isInitialized := app_isInitialized app |}).

(** [initApp]: seeds the store, loads the sites, marks the shell ready. *)
Definition initApp (inp : SeedInputs) (db : DB) (app : AppState) : DB * AppState :=
  let db' := seedDatabase inp db in
  let app' := loadSites db' app in
  (db',
   {| app_sites := app_sites app'; app_activeSiteId := app_activeSiteId app';
      app_isInitialized := true |}).

(** The state of the shell before [initApp] has run. *)
Definition initialApp : AppState :=
  {| app_sites := []; app_activeSiteId := 0; app_isInitialized := false |}.

(** ** Reading a line of the export back *)

(** [s.split(sep)] for a one-character separator. *)
Fixpoint splitOn (sep : ascii) (s : string) : list string :=
  match s with
  | EmptyString => [EmptyString]
  | String c rest =>
      if Ascii.eqb c sep then EmptyString :: splitOn sep rest
      else match splitOn sep rest with
           | cell :: cells => String c cell :: cells
           | [] => [String c EmptyString]
           end
  end.

(** The text has no occurrence of the character. *)
Fixpoint freeOf (sep : ascii) (s : string) : bool :=
  match s with
  | EmptyString => true
  | String c rest => negb (Ascii.eqb c sep) && freeOf sep rest
  end.

(** ** Month start ([getMonthStart], src/db/database.ts) *)

(** The decimal text of an integer that is not negative, as a template
    literal or [String(n)] prints it (up to twenty digits). *)
Definition integerToString (n : Z) : string := printDigits 20 n EmptyString.

(** [s.padStart(2, '0')]. *)
Definition padStart2 (s : string) : string :=
  match s with
  | EmptyString => "00"
  | String c EmptyString => String "0" (String c EmptyString)
  | _ => s
  end.

(** [getMonthStart], from [d.getFullYear()] and [d.getMonth()]. *)
Definition getMonthStart (fullYear month : Z) : string :=
  integerToString fullYear +:+ "-" +:+ padStart2 (integerToString (month + 1)) +:+ "-01".

(** Does [getMonthStart] spell the first day of that month? *)
Definition monthStartParses (fullYear month : Z) : bool :=
  match Date.fields (getMonthStart fullYear month) with
  | Some (y, m, d) => (y =? fullYear) && (m =? month + 1) && (d =? 1)
  | None => false
  end.

(** The number of occurrences of the character in the text. *)
Fixpoint countChar (sep : ascii) (s : string) : nat :=
  match s with
  | EmptyString => 0
  | String c rest => (if Ascii.eqb c sep then 1 else 0) + countChar sep rest
  end.

(** Inputs for a run of [seedDatabase]: a clock that ticks at every
    reading, the days back from 2024-01-20, and a constant draw. *)
Definition sampleSeed : SeedInputs :=
  {| seed_clock := fun n => 1000 + Z.of_nat n;
     seed_date := fun i => "2024-01-" +:+ padStart2 (integerToString (20 - Z.of_nat i));
     seed_random := fun _ => (1 # 2)%Q |}.

(** The clock of a dashboard opened on 2024-01-02 at ten. *)
Definition sampleClock : DashboardClock :=
  {| clk_today := "2024-01-02"; clk_yesterday := "2024-01-01";
     clk_monthStart := getMonthStart 2024 0;
     clk_weekAgo := 19717 * 86400000 + 36000000;
     clk_twoWeeksAgo := 19710 * 86400000 + 36000000 |}.

Definition sampleWorkerForm : WorkerForm :=
  {| wf_firstName := "Jean"; wf_lastName := "Kabongo"; wf_role := "Chef d'equipe";
     wf_phone := "+243 812 345 678"; wf_team := "B"; wf_status := leave;
     wf_hireDate := "2023-01-15" |}.

Definition sampleUser : User :=
  {| user_id := 7; user_firstName := "Marie"; user_lastName := "Mutombo";
     email := "marie@mineor.cd"; user_phone := EmptyString; role := supervisor;
     avatar := None; user_siteId := 1; user_team := "A"; user_createdAt := 1000 |}.

Definition sampleAttendanceClock : AttendanceClock :=
  {| ac_time := "08:45"; ac_hours := 8; ac_nowMs := 1704185100000;
     ac_today := "2024-01-02" |}.

(** The attendance page before anything was stored. *)
Definition emptyAttendance : AttendancePage :=
  {| todayRecords := []; isCheckedIn := false; checkInTime := None;
     attendanceStorage := ∅ |}.

(** * Properties *)

(** ** Reading a table after each store call *)

Section TableFacts.
Context {A : Type}.
Implicit Types (tb : list (option A)) (row : A) (key : nat).

Lemma get_fresh tb : Table.get (S (length tb)) tb = None.
Proof.
  simpl. rewrite (lookup_ge_None_2 tb (length tb)); [done | lia].
Qed.

Lemma get_beyond tb key : (length tb < key)%nat -> Table.get key tb = None.
Proof.
  destruct key as [|i]; [done |]. intros Hlt. simpl.
  rewrite lookup_ge_None_2; [done | lia].
Qed.

Lemma get_add_new row tb : Table.get (Table.add row tb).1 (Table.add row tb).2 = Some row.
Proof.
  simpl. rewrite lookup_app_r; [| lia]. by rewrite Nat.sub_diag.
Qed.

Lemma get_add_old row tb key :
  key <> S (length tb) -> Table.get key (Table.add row tb).2 = Table.get key tb.
Proof.
  intros Hne. destruct key as [|i]; [done |]. simpl.
  destruct (decide (i < length tb)%nat) as [Hlt | Hge].
  - by rewrite lookup_app_l.
  - rewrite (lookup_ge_None_2 tb i); [| lia].
    rewrite lookup_app_r; [| lia].
    destruct (i - length tb)%nat as [|j] eqn:Hd; [lia | done].
Qed.

Lemma get_update tb key key' (f : A -> A) :
  Table.get key (Table.update key' f tb)
  = if decide (key = key') then f <$> Table.get key tb else Table.get key tb.
Proof.
  case_decide as Hk.
  - subst key'. destruct key as [|i]; [done |]. simpl.
    rewrite list_lookup_alter_eq. by destruct (tb !! i) as [[r|]|].
  - destruct key' as [|j]; [done |]. destruct key as [|i]; [done |]. simpl.
    rewrite list_lookup_alter_ne; [done | congruence].
Qed.

Lemma get_delete tb key key' :
  Table.get key (Table.delete key' tb)
  = if decide (key = key') then None else Table.get key tb.
Proof.
  case_decide as Hk.
  - subst key'. destruct key as [|i]; [done |]. simpl.
    destruct (decide (i < length tb)%nat).
    + by rewrite list_lookup_insert_eq.
    + rewrite list_insert_ge; [| lia]. rewrite lookup_ge_None_2; [done | lia].
  - destruct key' as [|j]; [done |]. destruct key as [|i]; [done |]. simpl.
    rewrite list_lookup_insert_ne; [done | congruence].
Qed.

Lemma get_modify tb key (f : A -> A) :
  Table.get key (Table.modify f tb) = f <$> Table.get key tb.
Proof.
  destruct key as [|i]; [done |]. unfold Table.modify. simpl.
  rewrite list_lookup_fmap. by destruct (tb !! i) as [[r|]|].
Qed.

Lemma get_deleteWhere tb key (test : A -> bool) :
  Table.get key (Table.deleteWhere test tb)
  = Table.get key tb ≫= (fun row => if test row then None else Some row).
Proof.
  destruct key as [|i]; [done |]. unfold Table.deleteWhere. simpl.
  rewrite list_lookup_fmap. by destruct (tb !! i) as [[r|]|].
Qed.

(** [rowsFrom] lists exactly the filled slots, keyed by position. *)
Lemma elem_of_rowsFrom tb n key row :
  (key, row) ∈ Table.rowsFrom n tb
  <-> exists i, key = S (n + i) /\ tb !! i = Some (Some row).
Proof.
  revert n. induction tb as [|slot tb IH]; intros n; simpl.
  - split; [by intros ?%elem_of_nil | by intros (i & _ & ?)].
  - destruct slot as [r|].
    + rewrite elem_of_cons, IH. split.
      * intros [Heq | (i & -> & Hi)].
        -- injection Heq as -> ->. exists 0%nat. split; [f_equal; lia | done].
        -- exists (S i). split; [f_equal; lia | done].
      * intros ([|i] & -> & Hi); simpl in Hi.
        -- left. injection Hi as ->. f_equal. f_equal. lia.
        -- right. exists i. split; [f_equal; lia | done].
    + rewrite IH. split.
      * intros (i & -> & Hi). exists (S i). split; [f_equal; lia | done].
      * intros ([|i] & -> & Hi); simpl in Hi; [done |].
        exists i. split; [f_equal; lia | done].
Qed.

(** A row is listed by [toArray] exactly when [get] finds it under its key. *)
Lemma elem_of_toArray tb key row :
  (key, row) ∈ Table.toArray tb <-> Table.get key tb = Some row.
Proof.
  unfold Table.toArray. rewrite elem_of_rowsFrom. split.
  - intros (i & -> & Hi). simpl. by rewrite Hi.
  - destruct key as [|i]; [done |]. simpl. intros Hget.
    exists i. split; [done |].
    destruct (tb !! i) as [[r|]|]; simpl in Hget; by simplify_eq.
Qed.

Lemma rowsFrom_keys_above tb n key row :
  (key, row) ∈ Table.rowsFrom n tb -> (n < key)%nat.
Proof. rewrite elem_of_rowsFrom. intros (i & -> & _). lia. Qed.



End TableFacts.

(** ** One active site *)

Lemma get_sites_handleSiteChange id db key :
  Table.get key (sites (handleSiteChange id db))
  = markActive (Nat.eqb key id) <$> Table.get key (sites db).
Proof.
  unfold handleSiteChange. simpl.
  rewrite get_update, get_modify.
  case_decide as Hk.
  - subst key. rewrite Nat.eqb_refl. by destruct (Table.get id (sites db)).
  - apply Nat.eqb_neq in Hk. rewrite Hk. by destruct (Table.get key (sites db)).
Qed.

Lemma get_sites_handleSetActiveSite id db key :
  Table.get key (sites (handleSetActiveSite id db))
  = markActive (Nat.eqb key id) <$> Table.get key (sites db).
Proof.
  unfold handleSetActiveSite. cbv zeta.
  rewrite get_sites_handleSiteChange. simpl.
  rewrite get_update, get_modify.
  case_decide as Hk; by destruct (Table.get key (sites db)).
Qed.

Lemma get_sites_activate op db :
  exists id, forall key,
    Table.get key (sites (activate db op))
    = markActive (Nat.eqb key id) <$> Table.get key (sites db).
Proof.
  destruct op as [id | id]; exists id; intros key; simpl.
  - apply get_sites_handleSetActiveSite.
  - apply get_sites_handleSiteChange.
Qed.

(** When only the key [id] can be active, at most one listed row is. *)
Lemma active_rowsFrom_le_1 (tb : list (option Site)) id n :
  (forall i s, tb !! i = Some (Some s) -> isActive s = true -> S (n + i) = id) ->
  let c := length (List.filter (fun kr : nat * Site => isActive kr.2) (Table.rowsFrom n tb)) in
  (c <= 1)%nat /\ ((id <= n)%nat -> c = 0%nat).
Proof.
  revert n. induction tb as [|slot tb IH]; intros n Hact; simpl.
  - split; [lia | done].
  - assert (forall i s, tb !! i = Some (Some s) -> isActive s = true -> S (S n + i) = id)
      as Hact'.
    { intros i s Hi Hs. rewrite <- (Hact (S i) s Hi Hs). lia. }
    destruct (IH (S n) Hact') as [Hle Hzero].
    destruct slot as [s|]; simpl.
    + destruct (isActive s) eqn:Hs; simpl.
      * pose proof (Hact 0%nat s eq_refl Hs) as Hid.
        rewrite Hzero; [| lia]. split; [lia | lia].
      * split; [done |]. intros; apply Hzero; lia.
    + split; [done |]. intros; apply Hzero; lia.
Qed.

Lemma activeCount_le_1 (tb : Table.t Site) id :
  (forall key s, Table.get key tb = Some s -> isActive s = true -> key = id) ->
  (activeCount tb <= 1)%nat.
Proof.
  intros Hact. unfold activeCount, Table.toArray.
  apply (active_rowsFrom_le_1 tb id 0).
  intros i s Hi Hs. apply (Hact (S i) s); [| done]. simpl. by rewrite Hi.
Qed.

Lemma activeCount_activate op db : (activeCount (sites (activate db op)) <= 1)%nat.
Proof.
  destruct (get_sites_activate op db) as [id Hget].
  apply (activeCount_le_1 _ id).
  intros key s Hs Hflag. rewrite Hget in Hs.
  destruct (Table.get key (sites db)) as [s0|]; simpl in Hs; [| done].
  injection Hs as <-. simpl in Hflag. by apply Nat.eqb_eq.
Qed.

Lemma activeCount_activateAll ops db :
  (activeCount (sites db) <= 1)%nat ->
  (activeCount (sites (activateAll ops db)) <= 1)%nat.
Proof.
  unfold activateAll. revert db.
  induction ops as [|op ops IH]; intros db Hdb; simpl; [done |].
  apply IH, activeCount_activate.
Qed.

(** C3. Starting from a database with at most one active site, any sequence
    of activations (from the settings page or from the site menu) leaves at
    most one site with [isActive = true].  One activation first clears the
    flag of every site (no site is active in between) and then sets it on
    the chosen key only: afterwards a stored site is active exactly when its
    key is the chosen one, and its other fields are as before. *)
Theorem at_most_one_active_site (ops : list ActivateOp) (db : DB) :
  (activeCount (sites db) <= 1)%nat ->
  (activeCount (sites (activateAll ops db)) <= 1)%nat
  /\ (forall id,
        handleSiteChange id db
        = set_sites (Table.update id (applySite setActive))
            (set_sites (Table.modify (applySite clearActive)) db))
  /\ (forall key s,
        Table.get key (Table.modify (applySite clearActive) (sites db)) = Some s ->
        isActive s = false)
  /\ (forall id key,
        Table.get key (sites (handleSiteChange id db))
        = markActive (Nat.eqb key id) <$> Table.get key (sites db))
  /\ (forall id key,
        Table.get key (sites (handleSetActiveSite id db))
        = markActive (Nat.eqb key id) <$> Table.get key (sites db)).
Proof.
  intros Hdb. split; [by apply activeCount_activateAll |].
  split; [done |]. split.
  - intros key s. rewrite get_modify.
    destruct (Table.get key (sites db)); simpl; [| done].
    by intros [= <-].
  - split; intros id key.
    + apply get_sites_handleSiteChange.
    + apply get_sites_handleSetActiveSite.
Qed.

(** ** Cascading site deletion *)

Lemma survivors_deleteWhere {A : Type} (siteIdOf : A -> nat) id (tb : Table.t A) :
  survivors siteIdOf id tb (Table.deleteWhere (fun row => Nat.eqb (siteIdOf row) id) tb).
Proof.
  intros key row. rewrite get_deleteWhere.
  destruct (Table.get key tb) as [r|]; simpl.
  - destruct (Nat.eqb (siteIdOf r) id) eqn:Hid.
    + apply Nat.eqb_eq in Hid. split; [done |]. intros [[= ->] Hne]. done.
    + apply Nat.eqb_neq in Hid. split.
      * intros [= ->]. done.
      * by intros [[= ->] _].
  - split; [done | by intros [? _]].
Qed.

Lemma handleDeleteSite_cases sitesProp activeSiteId id db :
  (1 < length sitesProp)%nat ->
  handleDeleteSite sitesProp activeSiteId true id db = cascade id db
  \/ exists other, other <> id
       /\ handleDeleteSite sitesProp activeSiteId true id db
          = handleSiteChange other (cascade id db).
Proof.
  intros Hlen. unfold handleDeleteSite.
  destruct (Nat.leb (length sitesProp) 1) eqn:Hle; [apply Nat.leb_le in Hle; lia |].
  cbv zeta. fold (cascade id db).
  destruct (Nat.eqb id activeSiteId && Nat.ltb 1 (length sitesProp)); [| by left].
  destruct (List.find _ sitesProp) as [[k s]|] eqn:Hfind; [| by left].
  simpl. destruct (Nat.eqb k 0) eqn:Hk0; simpl; [by left |].
  right. exists k. split; [| done].
  apply List.find_some in Hfind as [_ Hne]. simpl in Hne.
  apply negb_true_iff, Nat.eqb_neq in Hne. done.
Qed.

(** C2. When [handleDeleteSite] goes through (the page knows of more than one
    site and the user confirms), the site [id] is gone from [sites], and each
    table that carries a [siteId] (productions, workers, inventory,
    purchases, daily reports) keeps exactly its rows of other sites, under
    their keys and unchanged.  The sixth collection, settings, has no
    [siteId]: none of its rows belongs to the site and it is left as it
    was. *)
Theorem delete_site_cascades (sitesProp : list (nat * Site)) (activeSiteId id : nat)
    (db : DB) :
  (1 < length sitesProp)%nat ->
  let db' := handleDeleteSite sitesProp activeSiteId true id db in
  Table.get id (sites db') = None
  /\ survivors prod_siteId id (productions db) (productions db')
  /\ survivors wk_siteId id (workers db) (workers db')
  /\ survivors inv_siteId id (inventory db) (inventory db')
  /\ survivors pur_siteId id (purchases db) (purchases db')
  /\ survivors dr_siteId id (dailyReports db) (dailyReports db')
  /\ settings db' = settings db.
Proof.
  intros Hlen db'. subst db'.
  destruct (handleDeleteSite_cases sitesProp activeSiteId id db Hlen)
    as [-> | (other & Hother & ->)].
  - simpl. split.
    { rewrite get_delete. by rewrite decide_True. }
    repeat (split; [apply survivors_deleteWhere |]). done.
  - split.
    { rewrite get_sites_handleSiteChange. simpl.
      rewrite get_delete. by rewrite decide_True. }
    simpl.
    repeat (split; [apply survivors_deleteWhere |]). done.
Qed.

(** Without the confirmation, or when the page knows of one site at most,
    nothing is deleted. *)
Lemma delete_site_refused sitesProp activeSiteId confirmed id db :
  (length sitesProp <= 1)%nat \/ confirmed = false ->
  handleDeleteSite sitesProp activeSiteId confirmed id db = db.
Proof.
  intros [Hlen | ->]; unfold handleDeleteSite.
  - apply Nat.leb_le in Hlen. by rewrite Hlen.
  - by destruct (Nat.leb (length sitesProp) 1).
Qed.

(** ** Rounding *)

(** [Math.round] returns the integer nearest to its argument, the upper one
    on a tie. *)
Lemma round_nearest (x : Q) :
  (x - (1 # 2) < inject_Z (JS.round x) /\ inject_Z (JS.round x) <= x + (1 # 2))%Q.
Proof.
  unfold JS.round. split.
  - pose proof (Qlt_floor (x + (1 # 2))) as Hlt.
    rewrite inject_Z_plus in Hlt. change (inject_Z 1) with 1%Q in Hlt. lra.
  - apply Qfloor_le.
Qed.

Lemma round_integer (z : Z) : JS.round (inject_Z z) = z.
Proof.
  destruct (round_nearest (inject_Z z)) as [Hlo Hhi].
  set (r := JS.round (inject_Z z)) in *.
  assert (inject_Z (z - 1) < inject_Z r)%Q as H1.
  { unfold Z.sub. rewrite inject_Z_plus. change (inject_Z (- (1))) with (- (1))%Q. lra. }
  assert (inject_Z r < inject_Z (z + 1))%Q as H2.
  { rewrite inject_Z_plus. change (inject_Z 1) with 1%Q. lra. }
  rewrite <- Zlt_Qlt in H1, H2. lia.
Qed.

(** ** Daily average *)




(** ** Percentage *)



(** ** Low stock *)

(** C7. An item is flagged low on stock exactly when its quantity is at most
    its minimum quantity, and the count of the report is the number of
    stored items with that flag. *)
Theorem low_stock_iff_quantity_le_min (it : InventoryItem) :
  (isLowStock it = true <-> (quantity it <= minQuantity it)%Q)
  /\ isLowStock (sampleItem 1 5 5) = true
  /\ isLowStock (sampleItem 1 6 5) = false
  /\ (forall dateRange db,
        lowStockItems (generateReport dateRange db)
        = lowStockCount (Table.toArray (inventory db)))
  /\ (forall rows,
        lowStockCount rows
        = length (List.filter (fun kr : nat * InventoryItem => isLowStock kr.2) rows)).
Proof.
  split; [apply Qle_bool_iff |]. repeat split.
Qed.

(** ** Purchases: the receipt is required *)

Lemma truthy_false_iff (s : string) : truthy s = false <-> s = EmptyString.
Proof.
  unfold truthy. rewrite negb_false_iff. apply String.eqb_eq.
Qed.

Lemma truthy_true_iff (s : string) : truthy s = true <-> s <> EmptyString.
Proof.
  unfold truthy. rewrite negb_true_iff. apply String.eqb_neq.
Qed.

(** C5. Submitting the form for a new purchase (nothing is being edited):
    with an empty receipt photo the handler stops before the store, the
    database is the same and the page shows the receipt error; with a
    receipt photo the purchase is added under the next key of the table,
    where [get] finds it with the receipt and the other fields of the form,
    and nothing else in the database changes. *)
Theorem purchase_requires_receipt (Number : string -> Q) (siteId : nat)
    (formData : PurchaseForm) (receiptError : bool) (now : Now)
    (tUpdated tCreated : Timestamp) (db : DB) :
  let result :=
    Purchases_handleSubmit Number siteId formData None receiptError now
      tUpdated tCreated db in
  let id := S (length (purchases db)) in
  (pf_receiptPhoto formData = EmptyString -> result = (db, true))
  /\ (pf_receiptPhoto formData <> EmptyString ->
      result.2 = false
      /\ Table.get id (purchases db) = None
      /\ Table.get id (purchases result.1)
         = Some {| pur_siteId := siteId;
                   item := pf_item formData;
                   amount := Number (pf_amount formData);
                   currency := pf_currency formData;
                   supplier := pf_supplier formData;
                   pur_category := pf_category formData;
                   receiptPhoto := pf_receiptPhoto formData;
                   purchaseDate := now_date now;
                   purchaseTime := now_time now;
                   pur_notes := pf_notes formData;
                   pur_createdAt := tCreated;
                   pur_updatedAt := tUpdated |}
      /\ (forall key, key <> id ->
            Table.get key (purchases result.1) = Table.get key (purchases db))
      /\ sites result.1 = sites db
      /\ productions result.1 = productions db
      /\ workers result.1 = workers db
      /\ inventory result.1 = inventory db
      /\ dailyReports result.1 = dailyReports db
      /\ settings result.1 = settings db).
Proof.
  intros result id. subst result id. unfold Purchases_handleSubmit. split.
  - intros Hempty. apply truthy_false_iff in Hempty. by rewrite Hempty.
  - intros Hphoto. apply truthy_true_iff in Hphoto.
    unfold str_or. rewrite Hphoto. simpl.
    split; [done |]. split; [apply get_fresh |]. split.
    { rewrite lookup_app_r; [| lia]. by rewrite Nat.sub_diag. }
    split; [| done].
    intros key Hkey.
    exact (get_add_old _ (purchases db) key Hkey).
Qed.

(** ** Add, then update *)

Lemma Production_handleSubmit_edit Number siteId form i old tU tC db :
  productions (Production_handleSubmit Number siteId form (Some (S i, old)) tU tC db)
  = Table.update (S i) (applyProduction (productionData Number siteId form tU))
      (productions db).
Proof. reflexivity. Qed.

Lemma Inventory_handleSubmit_edit Number siteId form i old tU tC db :
  inventory (Inventory_handleSubmit Number siteId form (Some (S i, old)) tU tC db)
  = Table.update (S i) (applyInventory (itemData Number siteId form tU))
      (inventory db).
Proof. reflexivity. Qed.

(** C6, as the code has it. A production saved by the form and then edited
    through it is read back under the same key with every field of the
    second form, the [siteId] of the page, the [createdAt] of the first
    save and the clock reading of the second save as [updatedAt]; so
    [updatedAt] grows strictly exactly when the clock has advanced between
    the two saves.  More generally [update] with any changes object
    overwrites the fields it names and keeps the others.  The inventory form
    behaves alike. *)
Theorem update_after_add_overwrites_fields (Number : string -> Q)
    (siteId siteId' : nat) (form form' : ProductionForm)
    (tUpdated tCreated tUpdated' tCreated' : Timestamp)
    (changes : ProductionChanges)
    (iform iform' : InventoryForm) (db : DB) :
  let id := S (length (productions db)) in
  let db1 := Production_handleSubmit Number siteId form None tUpdated tCreated db in
  let added :=
    {| prod_siteId := siteId; prod_date := prf_date form;
       quantityGrams := Number (prf_quantityGrams form);
       prod_team := prf_team form; prod_shift := prf_shift form;
       prod_notes := prf_notes form;
       prod_createdAt := tCreated; prod_updatedAt := tUpdated |} in
  let db2 :=
    Production_handleSubmit Number siteId' form' (Some (id, added))
      tUpdated' tCreated' db1 in
  let edited :=
    {| prod_siteId := siteId'; prod_date := prf_date form';
       quantityGrams := Number (prf_quantityGrams form');
       prod_team := prf_team form'; prod_shift := prf_shift form';
       prod_notes := prf_notes form';
       prod_createdAt := tCreated; prod_updatedAt := tUpdated' |} in
  let iid := S (length (inventory db)) in
  let idb1 := Inventory_handleSubmit Number siteId iform None tUpdated tCreated db in
  let idb2 :=
    Inventory_handleSubmit Number siteId' iform'
      (match Table.get iid (inventory idb1) with
       | Some row => Some (iid, row)
       | None => None
       end) tUpdated' tCreated' idb1 in
  Table.get id (productions db1) = Some added
  /\ Table.get id (productions db2) = Some edited
  /\ (prod_updatedAt added < prod_updatedAt edited <-> tUpdated < tUpdated')
  /\ Table.get id (Table.update id (applyProduction changes) (productions db1))
     = Some (applyProduction changes added)
  /\ prod_siteId (applyProduction changes added)
     = default siteId (ch_prod_siteId changes)
  /\ prod_date (applyProduction changes added)
     = default (prf_date form) (ch_prod_date changes)
  /\ quantityGrams (applyProduction changes added)
     = default (Number (prf_quantityGrams form)) (ch_quantityGrams changes)
  /\ prod_team (applyProduction changes added)
     = default (prf_team form) (ch_prod_team changes)
  /\ prod_shift (applyProduction changes added)
     = default (prf_shift form) (ch_prod_shift changes)
  /\ prod_notes (applyProduction changes added)
     = default (prf_notes form) (ch_prod_notes changes)
  /\ prod_createdAt (applyProduction changes added)
     = default tCreated (ch_prod_createdAt changes)
  /\ prod_updatedAt (applyProduction changes added)
     = default tUpdated (ch_prod_updatedAt changes)
  /\ Table.get iid (inventory idb2)
     = Some {| inv_siteId := siteId'; inv_name := if_name iform';
               inv_category := if_category iform';
               quantity := Number (if_quantity iform');
               unit_ := if_unit iform';
               minQuantity := Number (if_minQuantity iform');
               condition := if_condition iform';
               inv_location := if_location iform';
               inv_notes := if_notes iform';
               inv_createdAt := tCreated; inv_updatedAt := tUpdated' |}.
Proof.
  intros id db1 added db2 edited iid idb1 idb2.
  assert (Table.get id (productions db1) = Some added) as Hadd.
  { subst id db1 added. unfold Production_handleSubmit. simpl.
    rewrite lookup_app_r; [| lia]. by rewrite Nat.sub_diag. }
  split; [exact Hadd |]. split.
  { subst db2 id. rewrite Production_handleSubmit_edit.
    rewrite get_update, decide_True by done. by rewrite Hadd. }
  split; [done |]. split.
  { rewrite get_update, decide_True by done. by rewrite Hadd. }
  repeat (split; [done |]).
  assert (Table.get iid (inventory idb1)
          = Some {| inv_siteId := siteId; inv_name := if_name iform;
                    inv_category := if_category iform;
                    quantity := Number (if_quantity iform);
                    unit_ := if_unit iform;
                    minQuantity := Number (if_minQuantity iform);
                    condition := if_condition iform;
                    inv_location := if_location iform;
                    inv_notes := if_notes iform;
                    inv_createdAt := tCreated; inv_updatedAt := tUpdated |}) as Hiadd.
  { subst iid idb1. unfold Inventory_handleSubmit. simpl.
    rewrite lookup_app_r; [| lia]. by rewrite Nat.sub_diag. }
  subst idb2. rewrite Hiadd. subst iid. rewrite Inventory_handleSubmit_edit.
  rewrite get_update, decide_True by done. by rewrite Hiadd.
Qed.

(** ** Calendar order and text order of dates *)

Lemma digit_value c v :
  Date.digit c = Some v -> Z.of_N (N_of_ascii c) = v + 48 /\ 0 <= v <= 9.
Proof.
  unfold Date.digit, nat_of_ascii. rewrite N_nat_Z.
  destruct (_ && _) eqn:Hb; [| done].
  apply andb_true_iff in Hb as [H1 H2]. intros [= <-]. lia.
Qed.

Lemma digit_compare c1 c2 v1 v2 :
  Date.digit c1 = Some v1 -> Date.digit c2 = Some v2 ->
  Ascii.compare c1 c2 = (v1 ?= v2).
Proof.
  intros [H1 _]%digit_value [H2 _]%digit_value.
  unfold Ascii.compare. rewrite <- N2Z.inj_compare, H1, H2.
  destruct (Z.compare_spec v1 v2); [apply Z.compare_eq_iff | apply Z.compare_lt_iff
                                    | apply Z.compare_gt_iff]; lia.
Qed.

Lemma DayFromYear_succ y :
  Date.DayFromYear (y + 1)
  = Date.DayFromYear y + (if Date.InLeapYear y then 366 else 365).
Proof.
  unfold Date.DayFromYear, Date.InLeapYear.
  destruct (y mod 4 =? 0) eqn:H4; destruct (y mod 100 =? 0) eqn:H100;
    destruct (y mod 400 =? 0) eqn:H400; simpl;
    rewrite ?Z.eqb_eq, ?Z.eqb_neq in *;
    replace (y + 1 - 1969) with (y - 1968) by lia;
    replace (y + 1 - 1901) with (y - 1900) by lia;
    replace (y + 1 - 1601) with (y - 1600) by lia;
    Z.div_mod_to_equations; lia.
Qed.

Lemma DayFromYear_mono y y' : y <= y' -> Date.DayFromYear y <= Date.DayFromYear y'.
Proof. unfold Date.DayFromYear. intros Hle. Z.div_mod_to_equations. lia. Qed.

Ltac month_cases m :=
  let H := fresh in
  assert (m = 1 \/ m = 2 \/ m = 3 \/ m = 4 \/ m = 5 \/ m = 6 \/ m = 7 \/ m = 8
          \/ m = 9 \/ m = 10 \/ m = 11 \/ m = 12) as H by lia;
  repeat (destruct H as [H | H]); subst m.

Lemma DaysInMonth_le_31 y m : Date.DaysInMonth y m <= 31.
Proof.
  unfold Date.DaysInMonth.
  destruct (m =? 2); [destruct (Date.InLeapYear y); lia |].
  destruct (_ || _); lia.
Qed.

Lemma DayWithinYear_bounds y m d :
  validYMD y m d ->
  0 <= Date.DayWithinYear y m
  /\ Date.DayWithinYear y m + d <= (if Date.InLeapYear y then 366 else 365).
Proof.
  intros [Hm Hd]. month_cases m;
    unfold Date.DaysInMonth, Date.DayWithinYear in *; simpl in *;
    destruct (Date.InLeapYear y); lia.
Qed.

Lemma DayWithinYear_next y m m' d :
  validYMD y m d -> m < m' <= 12 ->
  Date.DayWithinYear y m + d <= Date.DayWithinYear y m'.
Proof.
  intros [Hm Hd] Hm'. month_cases m; month_cases m'; try lia;
    unfold Date.DaysInMonth, Date.DayWithinYear in *; simpl in *;
    destruct (Date.InLeapYear y); lia.
Qed.

(** Later in the calendar means a larger day number. *)
Lemma MakeDay_lt y m d y' m' d' :
  validYMD y m d -> validYMD y' m' d' ->
  10000 * y + 100 * m + d < 10000 * y' + 100 * m' + d' ->
  Date.MakeDay y m d < Date.MakeDay y' m' d'.
Proof.
  intros Hv Hv' Hkey.
  pose proof (DayWithinYear_bounds _ _ _ Hv) as [H0 H1].
  pose proof (DayWithinYear_bounds _ _ _ Hv') as [H0' H1'].
  pose proof (DaysInMonth_le_31 y m). pose proof (DaysInMonth_le_31 y' m').
  destruct Hv as [Hm Hd]. destruct Hv' as [Hm' Hd'].
  unfold Date.MakeDay.
  assert (y < y' \/ (y = y' /\ m < m') \/ (y = y' /\ m = m' /\ d < d')) as Hcase by lia.
  destruct Hcase as [Hy | [[-> Hmm] | (-> & -> & Hdd)]].
  - pose proof (DayFromYear_succ y) as Hs.
    pose proof (DayFromYear_mono (y + 1) y' ltac:(lia)) as Hmono.
    destruct (Date.InLeapYear y); lia.
  - pose proof (DayWithinYear_next y' m m' d (conj Hm Hd) ltac:(lia)). lia.
  - lia.
Qed.

Lemma MakeDay_le_iff y m d y' m' d' :
  validYMD y m d -> validYMD y' m' d' ->
  (10000 * y + 100 * m + d <= 10000 * y' + 100 * m' + d'
   <-> Date.MakeDay y m d <= Date.MakeDay y' m' d').
Proof.
  intros Hv Hv'. split.
  - intros Hle.
    destruct (Z.eq_dec (10000 * y + 100 * m + d) (10000 * y' + 100 * m' + d')) as [Heq | Hne].
    + pose proof (DaysInMonth_le_31 y m). pose proof (DaysInMonth_le_31 y' m').
      destruct Hv as [Hm Hd]. destruct Hv' as [Hm' Hd'].
      assert (y = y' /\ m = m' /\ d = d') as (-> & -> & ->) by lia. lia.
    + pose proof (MakeDay_lt _ _ _ _ _ _ Hv Hv' ltac:(lia)). lia.
  - intros Hle.
    destruct (Z_lt_le_dec (10000 * y' + 100 * m' + d') (10000 * y + 100 * m + d))
      as [Hlt | Hge]; [| lia].
    pose proof (MakeDay_lt _ _ _ _ _ _ Hv' Hv Hlt). lia.
Qed.

Lemma fields_shape s y m d :
  Date.fields s = Some (y, m, d) ->
  exists c1 c2 c3 c4 c5 c6 c7 c8 v1 v2 v3 v4 v5 v6 v7 v8,
    s = String c1 (String c2 (String c3 (String c4 (String "-"
          (String c5 (String c6 (String "-" (String c7 (String c8 EmptyString)))))))))
    /\ Date.digit c1 = Some v1 /\ Date.digit c2 = Some v2
    /\ Date.digit c3 = Some v3 /\ Date.digit c4 = Some v4
    /\ Date.digit c5 = Some v5 /\ Date.digit c6 = Some v6
    /\ Date.digit c7 = Some v7 /\ Date.digit c8 = Some v8
    /\ y = 1000 * v1 + 100 * v2 + 10 * v3 + v4
    /\ m = 10 * v5 + v6
    /\ d = 10 * v7 + v8
    /\ validYMD y m d.
Proof.
  intros H. unfold Date.fields in H.
  do 10 (destruct s as [|? s]; [discriminate H |]).
  destruct s; [| discriminate H].
  cbn [list_ascii_of_string] in H.
  repeat match type of H with
         | context [Date.digit ?c] =>
             let E := fresh "E" in
             destruct (Date.digit c) eqn:E; [| discriminate H];
             cbn [mbind option_bind] in H
         end.
  destruct (_ && _) eqn:Hok in H; [| discriminate H].
  injection H as <- <- <-.
  repeat (apply andb_true_iff in Hok as [Hok ?]).
  apply Ascii.eqb_eq in Hok as ->.
  match goal with Hd : Ascii.eqb _ _ = true |- _ => apply Ascii.eqb_eq in Hd as -> end.
  do 16 eexists. split; [reflexivity |].
  repeat (split; [eassumption || reflexivity |]).
  unfold validYMD. lia.
Qed.

(** For two date strings, the order of the texts is the order of the days. *)
Lemma iso_order_is_calendar_order s1 s2 d1 d2 :
  Date.dayNumber s1 = Some d1 -> Date.dayNumber s2 = Some d2 ->
  (String.leb s1 s2 = true <-> d1 <= d2).
Proof.
  unfold Date.dayNumber. intros H1 H2.
  destruct (Date.fields s1) as [[[y m] d]|] eqn:F1; [| discriminate H1].
  destruct (Date.fields s2) as [[[y' m'] d']|] eqn:F2; [| discriminate H2].
  simpl in H1, H2. injection H1 as <-. injection H2 as <-.
  apply fields_shape in F1
    as (a1 & a2 & a3 & a4 & a5 & a6 & a7 & a8 & v1 & v2 & v3 & v4 & v5 & v6 & v7 & v8
        & -> & A1 & A2 & A3 & A4 & A5 & A6 & A7 & A8 & -> & -> & -> & Hv).
  apply fields_shape in F2
    as (b1 & b2 & b3 & b4 & b5 & b6 & b7 & b8 & w1 & w2 & w3 & w4 & w5 & w6 & w7 & w8
        & -> & B1 & B2 & B3 & B4 & B5 & B6 & B7 & B8 & -> & -> & -> & Hw).
  rewrite <- (MakeDay_le_iff _ _ _ _ _ _ Hv Hw).
  unfold String.leb. cbn [String.compare].
  rewrite (digit_compare _ _ _ _ A1 B1), (digit_compare _ _ _ _ A2 B2),
    (digit_compare _ _ _ _ A3 B3), (digit_compare _ _ _ _ A4 B4),
    (digit_compare _ _ _ _ A5 B5), (digit_compare _ _ _ _ A6 B6),
    (digit_compare _ _ _ _ A7 B7), (digit_compare _ _ _ _ A8 B8).
  change (Ascii.compare "-" "-") with Eq. cbv iota.
  apply digit_value in A1 as [_ ?], A2 as [_ ?], A3 as [_ ?], A4 as [_ ?],
    A5 as [_ ?], A6 as [_ ?], A7 as [_ ?], A8 as [_ ?].
  apply digit_value in B1 as [_ ?], B2 as [_ ?], B3 as [_ ?], B4 as [_ ?],
    B5 as [_ ?], B6 as [_ ?], B7 as [_ ?], B8 as [_ ?].
  clear Hv Hw.
  destruct (Z.compare_spec v1 w1); [| split; [lia | done] | split; [done | lia]].
  destruct (Z.compare_spec v2 w2); [| split; [lia | done] | split; [done | lia]].
  destruct (Z.compare_spec v3 w3); [| split; [lia | done] | split; [done | lia]].
  destruct (Z.compare_spec v4 w4); [| split; [lia | done] | split; [done | lia]].
  destruct (Z.compare_spec v5 w5); [| split; [lia | done] | split; [done | lia]].
  destruct (Z.compare_spec v6 w6); [| split; [lia | done] | split; [done | lia]].
  destruct (Z.compare_spec v7 w7); [| split; [lia | done] | split; [done | lia]].
  destruct (Z.compare_spec v8 w8); [| split; [lia | done] | split; [done | lia]].
  split; [lia | done].
Qed.

(** ** CSV export *)

Lemma elem_of_filterToArray {A : Type} (test : A -> bool) (tb : Table.t A) key row :
  (key, row) ∈ Table.filterToArray test tb
  <-> Table.get key tb = Some row /\ test row = true.
Proof.
  unfold Table.filterToArray.
  rewrite list_elem_of_In, List.filter_In, <- list_elem_of_In, elem_of_toArray.
  done.
Qed.



(** ** Roles *)

(** C9. [canAccess] answers by the level of the view mode (admin 3,
    supervisor 2, worker 1): it grants a required role exactly when the
    level of the view mode is at least the level required.  Switching the
    view mode changes that answer and leaves the stored user as it is. *)
Theorem can_access_iff_level (st : AuthState) (requiredRole : UserRole)
    (mode : ViewMode) :
  (canAccess st requiredRole = true
   <-> roleHierarchy (viewMode st) >= roleHierarchy requiredRole)
  /\ roleHierarchy admin = 3
  /\ roleHierarchy supervisor = 2
  /\ roleHierarchy worker = 1
  /\ user (setViewMode mode st) = user st
  /\ viewMode (setViewMode mode st) = mode
  /\ (canAccess (setViewMode mode st) requiredRole = true
      <-> roleHierarchy mode >= roleHierarchy requiredRole).
Proof.
  unfold canAccess. simpl. rewrite !Z.geb_le. repeat split; lia.
Qed.

(** ** Settings singleton *)

Lemma first_of_empty {A : Type} (tb : Table.t A) :
  Table.toArray tb = [] -> Table.first tb = None.
Proof. unfold Table.first. by intros ->. Qed.

(** C10. With no settings row in the store, [getSettings] answers with the
    default object (the five toggles on, dark theme, French, stamped with
    the current time, no key) and [updateSettings] leaves the database as
    it is. *)
Theorem settings_default_when_empty (now : Timestamp) (updates : SettingsChanges)
    (db : DB) :
  Table.toArray (settings db) = [] ->
  getSettings now db
  = (None,
     {| showVsYesterday := true; showVsLastWeek := true; showWorkingDays := true;
        showProductionComparison := true; showPurchaseComparison := true;
        theme := dark; language := fr; set_updatedAt := now |})
  /\ updateSettings updates now db = db.
Proof.
  intros Hempty. apply first_of_empty in Hempty.
  unfold getSettings, updateSettings. by rewrite Hempty.
Qed.

(** ** Worked examples *)



Example daily_average_one_day :
  computeDailyAverage 900 {| range_start := "2024-01-01"; range_end := "2024-01-01" |}
  = Some 900.
Proof. reflexivity. Qed.

Example daily_average_invalid_date :
  computeDailyAverage 900 {| range_start := EmptyString; range_end := "2024-01-01" |} = None.
Proof. reflexivity. Qed.

Lemma delete_site_cascades_witness :
  (1 < length sampleSitesProp)%nat
  /\ Table.get 1 (sites (handleDeleteSite sampleSitesProp 1 true 1 sampleDB)) = None
  /\ survivors prod_siteId 1 (productions sampleDB)
       (productions (handleDeleteSite sampleSitesProp 1 true 1 sampleDB)).
Proof.
  assert (1 < length sampleSitesProp)%nat as Hlen by (vm_compute; lia).
  split; [exact Hlen |].
  pose proof (delete_site_cascades sampleSitesProp 1 1 sampleDB Hlen) as H.
  split; [exact (proj1 H) | exact (proj1 (proj2 H))].
Defined.

(** Deleting the active site 1 of the sample: its rows go, those of site 2
    stay, and site 2 becomes the active one. *)
Example delete_site_sample :
  let db' := handleDeleteSite sampleSitesProp 1 true 1 sampleDB in
  sites db' = [None; Some (markActive true siteB)]
  /\ productions db' = [None; Some (sampleProduction 2 "2024-01-02" "pluie, arret" 250); None]
  /\ workers db' = [None; Some (sampleWorker 2)]
  /\ inventory db' = [None; Some (sampleItem 2 6 5)]
  /\ purchases db' = [Some (samplePurchase 2); None]
  /\ dailyReports db' = [None; Some (sampleReport 2)]
  /\ settings db' = [Some sampleSettings].
Proof. vm_compute. repeat split. Qed.

Lemma at_most_one_active_site_witness :
  (activeCount (sites sampleDB) <= 1)%nat
  /\ (activeCount
        (sites (activateAll [FromSettingsPage 2; FromSiteMenu 1; FromSettingsPage 2]
                  sampleDB)) <= 1)%nat.
Proof.
  assert (activeCount (sites sampleDB) <= 1)%nat as Hdb by (vm_compute; lia).
  split; [exact Hdb |].
  exact (proj1 (at_most_one_active_site
                  [FromSettingsPage 2; FromSiteMenu 1; FromSettingsPage 2] sampleDB Hdb)).
Defined.

Example activate_sample :
  sites (activateAll [FromSettingsPage 2; FromSiteMenu 1; FromSettingsPage 2] sampleDB)
  = [Some (markActive false siteA); Some (markActive true siteB)].
Proof. reflexivity. Qed.

(** Activating a key that no site has leaves no site active. *)
Example activate_missing_site :
  activeCount (sites (handleSetActiveSite 7 sampleDB)) = 0%nat.
Proof. reflexivity. Qed.


Example percentage_tie_goes_up : getPercentage 1 8 = 13.
Proof. reflexivity. Qed.

Lemma purchase_requires_receipt_witness :
  Purchases_handleSubmit sampleNumber 1 (samplePurchaseForm EmptyString) None false
    sampleNow 5000 5001 sampleDB
  = (sampleDB, true)
  /\ Table.get 3
       (purchases
          (Purchases_handleSubmit sampleNumber 1
             (samplePurchaseForm "data:image/png;base64,BBBB") None false
             sampleNow 5000 5001 sampleDB).1)
     = Some {| pur_siteId := 1; item := "Gants"; amount := 12; currency := "USD";
               supplier := "Depot"; pur_category := pur_consumables;
               receiptPhoto := "data:image/png;base64,BBBB";
               purchaseDate := "2024-01-02"; purchaseTime := "10:30";
               pur_notes := EmptyString; pur_createdAt := 5001; pur_updatedAt := 5000 |}.
Proof.
  split.
  - exact (proj1 (purchase_requires_receipt sampleNumber 1 (samplePurchaseForm EmptyString)
                    false sampleNow 5000 5001 sampleDB) eq_refl).
  - assert (pf_receiptPhoto (samplePurchaseForm "data:image/png;base64,BBBB") <> EmptyString)
      as Hphoto by discriminate.
    exact (proj1 (proj2 (proj2
             (proj2 (purchase_requires_receipt sampleNumber 1
                       (samplePurchaseForm "data:image/png;base64,BBBB")
                       false sampleNow 5000 5001 sampleDB) Hphoto)))).
Defined.

(** C6 as worded does not hold.  A production saved and edited at the same
    clock reading: the edit is stored, and [updatedAt] is what it was. *)
Lemma updatedAt_same_clock_reading :
  let db1 :=
    Production_handleSubmit sampleNumber 1 (sampleProductionForm "250" EmptyString) None
      5000 5000 emptyDB in
  let editing :=
    match Table.get 1 (productions db1) with
    | Some row => Some (1%nat, row)
    | None => None
    end in
  let db2 :=
    Production_handleSubmit sampleNumber 1 (sampleProductionForm "260" "corrige")
      editing 5000 5000 db1 in
  exists row1 row2,
    Table.get 1 (productions db1) = Some row1
    /\ Table.get 1 (productions db2) = Some row2
    /\ prod_notes row2 = "corrige"
    /\ ~ (prod_updatedAt row1 < prod_updatedAt row2).
Proof.
  cbv zeta. do 2 eexists.
  split; [reflexivity |]. split; [reflexivity |]. split; [reflexivity |].
  simpl. lia.
Qed.

Example export_sample :
  exportCSV sampleNumberToString january sampleDB
  = "Date,Quantité (g),Équipe,Quart,Notes" +:+ newline
    +:+ "2024-01-01,400,A,morning," +:+ newline
    +:+ "2024-01-02,250,A,morning,pluie, arret".
Proof. reflexivity. Qed.

Example can_access_sample :
  let st := {| user := None; viewMode := supervisor |} in
  canAccess st admin = false
  /\ canAccess st supervisor = true
  /\ canAccess st worker = true
  /\ canAccess (setViewMode admin st) admin = true.
Proof. repeat split. Qed.

Lemma settings_default_when_empty_witness :
  Table.toArray (settings (set_settings (Table.delete 1) sampleDB)) = []
  /\ updateSettings
       {| ch_showVsYesterday := Some false; ch_showVsLastWeek := None;
          ch_showWorkingDays := None; ch_showProductionComparison := None;
          ch_showPurchaseComparison := None; ch_theme := None; ch_language := None;
          ch_set_updatedAt := None |} 5000 (set_settings (Table.delete 1) sampleDB)
     = set_settings (Table.delete 1) sampleDB.
Proof.
  split; [reflexivity |].
  exact (proj2 (settings_default_when_empty 5000 _ (set_settings (Table.delete 1) sampleDB)
                  eq_refl)).
Defined.

(** With a settings row in place, [updateSettings] overwrites the named
    toggle and the time stamp. *)
Example update_settings_sample :
  Table.get 1
    (settings
       (updateSettings
          {| ch_showVsYesterday := Some false; ch_showVsLastWeek := None;
             ch_showWorkingDays := None; ch_showProductionComparison := None;
             ch_showPurchaseComparison := None; ch_theme := None; ch_language := None;
             ch_set_updatedAt := None |} 5000 sampleDB))
  = Some {| showVsYesterday := false; showVsLastWeek := false; showWorkingDays := true;
            showProductionComparison := true; showPurchaseComparison := true;
            theme := light; language := en; set_updatedAt := 5000 |}.
Proof. reflexivity. Qed.

Example day_numbers :
  Date.dayNumber "1970-01-01" = Some 0
  /\ Date.dayNumber "2024-01-01" = Some 19723
  /\ Date.dayNumber "2024-02-29" = Some 19782
  /\ Date.dayNumber "2024-03-01" = Some 19783
  /\ Date.dayNumber "2023-02-29" = None
  /\ Date.dayNumber "2024-1-1" = None.
Proof. repeat split. Qed.

Lemma update_after_add_overwrites_fields_witness :
  prod_updatedAt
    {| prod_siteId := 1; prod_date := "2024-01-02"; quantityGrams := 250;
       prod_team := "A"; prod_shift := night; prod_notes := EmptyString;
       prod_createdAt := 5001; prod_updatedAt := 5000 |}
  < prod_updatedAt
      {| prod_siteId := 1; prod_date := "2024-01-02"; quantityGrams := 260;
         prod_team := "A"; prod_shift := night; prod_notes := "corrige";
         prod_createdAt := 5001; prod_updatedAt := 9000 |}
  /\ Table.get 4
       (productions
          (Production_handleSubmit sampleNumber 1 (sampleProductionForm "260" "corrige")
             (Some (4%nat,
                    {| prod_siteId := 1; prod_date := "2024-01-02"; quantityGrams := 250;
                       prod_team := "A"; prod_shift := night; prod_notes := EmptyString;
                       prod_createdAt := 5001; prod_updatedAt := 5000 |}))
             9000 9001
             (Production_handleSubmit sampleNumber 1
                (sampleProductionForm "250" EmptyString) None 5000 5001 sampleDB)))
     = Some {| prod_siteId := 1; prod_date := "2024-01-02"; quantityGrams := 260;
               prod_team := "A"; prod_shift := night; prod_notes := "corrige";
               prod_createdAt := 5001; prod_updatedAt := 9000 |}.
Proof.
  pose proof (update_after_add_overwrites_fields sampleNumber 1 1
                (sampleProductionForm "250" EmptyString)
                (sampleProductionForm "260" "corrige")
                5000 5001 9000 9001
                {| ch_prod_siteId := None; ch_prod_date := None;
                   ch_quantityGrams := None; ch_prod_team := None;
                   ch_prod_shift := None; ch_prod_notes := Some "corrige";
                   ch_prod_createdAt := None; ch_prod_updatedAt := None |}
                (sampleInventoryForm "5" "5") (sampleInventoryForm "4" "5") sampleDB)
    as (_ & Hedit & Hclock & _).
  split.
  - apply Hclock. reflexivity.
  - exact Hedit.
Defined.

Lemma low_stock_iff_quantity_le_min_witness :
  (quantity (sampleItem 1 5 5) <= minQuantity (sampleItem 1 5 5))%Q
  /\ isLowStock (sampleItem 1 5 5) = true.
Proof.
  assert (quantity (sampleItem 1 5 5) <= minQuantity (sampleItem 1 5 5))%Q as Hle
    by discriminate.
  split; [exact Hle |].
  exact (proj2 (proj1 (low_stock_iff_quantity_le_min (sampleItem 1 5 5))) Hle).
Defined.

Example low_stock_count_sample :
  lowStockItems (generateReport january sampleDB) = 1%nat.
Proof. reflexivity. Qed.


Lemma can_access_iff_level_witness :
  roleHierarchy (viewMode {| user := None; viewMode := admin |}) >= roleHierarchy supervisor
  /\ canAccess {| user := None; viewMode := admin |} supervisor = true.
Proof.
  assert (roleHierarchy (viewMode {| user := None; viewMode := admin |})
          >= roleHierarchy supervisor) as Hlevel by (simpl; lia).
  split; [exact Hlevel |].
  exact (proj2 (proj1 (can_access_iff_level {| user := None; viewMode := admin |}
                         supervisor worker)) Hlevel).
Defined.

(** * Further properties of the pages *)

(** ** Counting active sites *)

Lemma rowsFrom_app {A : Type} (l1 l2 : list (option A)) n :
  Table.rowsFrom n (l1 ++ l2)
  = Table.rowsFrom n l1 ++ Table.rowsFrom (n + length l1) l2.
Proof.
  revert n. induction l1 as [|[r|] l1 IH]; intros n; simpl.
  - by rewrite Nat.add_0_r.
  - rewrite IH. do 3 f_equal. lia.
  - rewrite IH. do 2 f_equal. lia.
Qed.

Lemma activeCount_add s (tb : Table.t Site) :
  activeCount (Table.add s tb).2
  = (activeCount tb + (if isActive s then 1 else 0))%nat.
Proof.
  unfold activeCount, Table.toArray. simpl.
  rewrite rowsFrom_app, List.filter_app, length_app. simpl.
  by destruct (isActive s).
Qed.

(** A change that keeps every flag keeps the count. *)
Lemma active_rowsFrom_alter (f : Site -> Site) (tb : list (option Site)) i n :
  (forall s, isActive (f s) = isActive s) ->
  length (List.filter (fun kr : nat * Site => isActive kr.2)
            (Table.rowsFrom n (alter (fun slot : option Site => f <$> slot) i tb)))
  = length (List.filter (fun kr : nat * Site => isActive kr.2) (Table.rowsFrom n tb)).
Proof.
  intros Hf.
  revert i n. induction tb as [|slot tb IH]; intros i n; [by destruct i |].
  destruct i as [|i]; cbn.
  - destruct slot as [s|]; cbn; [| done]. rewrite Hf. by destruct (isActive s).
  - destruct slot as [s|]; cbn; [| apply IH].
    destruct (isActive s); cbn; [f_equal |]; apply IH.
Qed.

Lemma activeCount_update_same_flags key (f : Site -> Site) (tb : Table.t Site) :
  (forall s, isActive (f s) = isActive s) ->
  activeCount (Table.update key f tb) = activeCount tb.
Proof.
  intros Hf. destruct key as [|i]; [done |].
  unfold activeCount, Table.toArray. simpl.
  by apply active_rowsFrom_alter.
Qed.

Lemma active_rowsFrom_delete (tb : list (option Site)) i n :
  (length (List.filter (fun kr : nat * Site => isActive kr.2)
             (Table.rowsFrom n (<[i := None]> tb)))
   <= length (List.filter (fun kr : nat * Site => isActive kr.2) (Table.rowsFrom n tb)))%nat.
Proof.
  revert i n. induction tb as [|slot tb IH]; intros i n; [by destruct i |].
  destruct i as [|i]; cbn.
  - destruct slot as [s|]; cbn; [| done].
    destruct (isActive s); cbn; lia.
  - destruct slot as [s|]; cbn; [| apply IH].
    destruct (isActive s); cbn; [apply le_n_S |]; apply IH.
Qed.

Lemma activeCount_delete key (tb : Table.t Site) :
  (activeCount (Table.delete key tb) <= activeCount tb)%nat.
Proof.
  destruct key as [|i]; [done |].
  unfold activeCount, Table.toArray. simpl. apply active_rowsFrom_delete.
Qed.

(** The count when the flag of a row says whether its key is [id]. *)
Lemma active_rowsFrom_exact (tb : list (option Site)) id n :
  (forall i s, tb !! i = Some (Some s) -> isActive s = Nat.eqb (S (n + i)) id) ->
  length (List.filter (fun kr : nat * Site => isActive kr.2) (Table.rowsFrom n tb))
  = if decide (n < id /\ is_Some (mjoin (tb !! (id - S n))))%nat then 1%nat else 0%nat.
Proof.
  revert n. induction tb as [|slot tb IH]; intros n Hact.
  - simpl. case_decide as H; [| done]. destruct H as [_ [? H]]. done.
  - assert (forall i s, tb !! i = Some (Some s) ->
                        isActive s = Nat.eqb (S (S n + i)) id) as Hact'.
    { intros i s Hi. rewrite (Hact (S i) s Hi). f_equal. lia. }
    specialize (IH (S n) Hact').
    destruct (decide (id = S n)) as [-> | Hne].
    + rewrite Nat.sub_diag. simpl.
      rewrite decide_False in IH by lia.
      destruct slot as [s|]; simpl.
      * rewrite (Hact 0%nat s eq_refl), Nat.add_0_r, Nat.eqb_refl. simpl. rewrite IH.
        rewrite decide_True; [done | split; [lia | by eexists]].
      * rewrite IH. rewrite decide_False; [done |]. intros [_ [? H]]. done.
    + assert (Hslot : length (List.filter (fun kr : nat * Site => isActive kr.2)
                                (Table.rowsFrom n (slot :: tb)))
                      = length (List.filter (fun kr : nat * Site => isActive kr.2)
                                  (Table.rowsFrom (S n) tb))).
      { destruct slot as [s|]; simpl; [| done].
        rewrite (Hact 0%nat s eq_refl), Nat.add_0_r.
        destruct (Nat.eqb_spec (S n) id); [congruence | done]. }
      rewrite Hslot, IH.
      destruct (decide (S n < id)%nat) as [Hlt | Hge].
      * replace (id - S n)%nat with (S (id - S (S n))) by lia. simpl.
        destruct (decide (is_Some (mjoin (tb !! (id - S (S n))%nat)))) as [Hs | Hs].
        -- rewrite !decide_True; [done | split; [lia | done] | split; [lia | done]].
        -- rewrite !decide_False; [done | tauto | tauto].
      * rewrite !decide_False; [done | lia | lia].
Qed.

(** ** Activating, deleting and saving sites (Settings.tsx, App.tsx) *)

Lemma activate_after_activate id id' (tb : list (option Site)) :
  Table.update id (applySite setActive)
    (Table.modify (applySite clearActive)
       (Table.update id' (applySite setActive)
          (Table.modify (applySite clearActive) tb)))
  = Table.update id (applySite setActive) (Table.modify (applySite clearActive) tb).
Proof.
  assert (Hmod : Table.modify (applySite clearActive)
                   (Table.update id' (applySite setActive)
                      (Table.modify (applySite clearActive) tb))
                 = Table.modify (applySite clearActive) tb).
  { unfold Table.modify. destruct id' as [|j]; simpl.
    - rewrite <- list_fmap_compose. apply list_fmap_ext.
      intros i [s|] Hi; reflexivity.
    - apply list_eq. intros i.
      rewrite !list_lookup_fmap, list_lookup_alter, list_lookup_fmap.
      case_decide as Hd; [rewrite Hd |]; rewrite ?list_lookup_fmap;
        by destruct (tb !! i) as [[s|]|]. }
  by rewrite Hmod.
Qed.

(** X1. The button of the settings page and the site menu do the same to the
    store; of two activations the later one decides; and afterwards exactly
    one site is active when the chosen key holds a site, none otherwise. *)
Theorem activation_makes_exactly_one_active (id : nat) (db : DB) :
  handleSetActiveSite id db = handleSiteChange id db
  /\ (forall id', handleSiteChange id (handleSiteChange id' db) = handleSiteChange id db)
  /\ activeCount (sites (handleSiteChange id db))
     = match Table.get id (sites db) with Some _ => 1%nat | None => 0%nat end.
Proof.
  assert (forall id', handleSiteChange id (handleSiteChange id' db) = handleSiteChange id db)
    as Htwice.
  { intros id'. unfold handleSiteChange, set_sites. simpl.
    by rewrite activate_after_activate. }
  split; [apply (Htwice id) |]. split; [exact Htwice |].
  unfold activeCount, Table.toArray.
  rewrite (active_rowsFrom_exact _ id 0).
  - pose proof (get_sites_handleSiteChange id db id) as Hget.
    destruct id as [|i].
    + rewrite decide_False; [done | lia].
    + unfold Table.get in Hget |- *. replace (S i - 1)%nat with i by lia. rewrite Hget.
      clear Hget.
      match goal with |- context [mjoin ?x] => destruct x as [[s|]|] end.
      * rewrite decide_True; [done | split; [lia | by eexists]].
      * rewrite decide_False; [done |]. intros [_ [? H]]. done.
      * rewrite decide_False; [done |]. intros [_ [? H]]. done.
  - intros i s Hi.
    pose proof (get_sites_handleSiteChange id db (S i)) as Hget.
    unfold Table.get in Hget. rewrite Hi in Hget. simpl in Hget.
    match type of Hget with
    | context [mjoin ?x] => destruct x as [[s0|]|]
    end; simpl in Hget; [| done | done].
    injection Hget as ->. done.
Qed.

(** X2. Whatever [handleDeleteSite] is given, a store with at most one active
    site stays so. *)
Theorem delete_site_keeps_one_active (sitesProp : list (nat * Site))
    (activeSiteId : nat) (confirmed : bool) (id : nat) (db : DB) :
  (activeCount (sites db) <= 1)%nat ->
  (activeCount (sites (handleDeleteSite sitesProp activeSiteId confirmed id db)) <= 1)%nat.
Proof.
  intros Hdb.
  destruct (decide (length sitesProp <= 1)%nat) as [Hlen | Hlen].
  { rewrite delete_site_refused; [done | by left]. }
  destruct confirmed; [| rewrite delete_site_refused; [done | by right]].
  destruct (handleDeleteSite_cases sitesProp activeSiteId id db ltac:(lia))
    as [-> | (other & _ & ->)].
  - simpl. pose proof (activeCount_delete id (sites db)). lia.
  - apply (activeCount_activate (FromSiteMenu other)).
Qed.

(** X3. Deleting the active site hands the flag to the first other site of the
    page's list; deleting another site leaves the remaining site rows as
    they are. *)
Theorem delete_active_site_activates_another (sitesProp : list (nat * Site))
    (activeSiteId id : nat) (db : DB) :
  (1 < length sitesProp)%nat ->
  let db' := handleDeleteSite sitesProp activeSiteId true id db in
  (id <> activeSiteId -> sites db' = Table.delete id (sites db))
  /\ (forall other s,
        id = activeSiteId ->
        List.find (fun kr : nat * Site => negb (Nat.eqb kr.1 id)) sitesProp
        = Some (other, s) ->
        other <> 0%nat ->
        other <> id
        /\ forall key,
             Table.get key (sites db')
             = if decide (key = id) then None
               else markActive (Nat.eqb key other) <$> Table.get key (sites db)).
Proof.
  intros Hlen db'. subst db'. unfold handleDeleteSite.
  destruct (Nat.leb (length sitesProp) 1) eqn:Hle; [apply Nat.leb_le in Hle; lia |].
  cbv zeta. fold (cascade id db).
  apply Nat.ltb_lt in Hlen. rewrite Hlen, andb_true_r.
  split.
  - intros Hne. apply Nat.eqb_neq in Hne. by rewrite Hne.
  - intros other s -> Hfind Hother. rewrite Nat.eqb_refl, Hfind. cbn [fst andb].
    apply Nat.eqb_neq in Hother. rewrite Hother. cbn [negb].
    apply List.find_some in Hfind as [_ Hne]. simpl in Hne.
    apply negb_true_iff, Nat.eqb_neq in Hne.
    split; [done |]. intros key.
    rewrite get_sites_handleSiteChange. simpl. rewrite get_delete.
    case_decide; done.
Qed.

(** X4. [handleSaveSite] never moves the active flag of a stored site.  Renaming
    keeps every flag and creation date; a new site is stored under the next
    key, active exactly when the page holds no site at all, so the count of
    active sites grows by one in that case only. *)
Theorem save_site_active_count (sitesProp : list (nat * Site))
    (editingSite : option (nat * Site)) (name location : string)
    (now : Timestamp) (db : DB) :
  let db' := handleSaveSite sitesProp editingSite name location now db in
  let renamed := fun s : Site =>
    {| site_name := name; site_location := location;
       isActive := isActive s; site_createdAt := site_createdAt s |} in
  match editingSite with
  | Some (S i, _) =>
      activeCount (sites db') = activeCount (sites db)
      /\ forall key,
           Table.get key (sites db')
           = if decide (key = S i) then renamed <$> Table.get key (sites db)
             else Table.get key (sites db)
  | _ =>
      activeCount (sites db')
      = (activeCount (sites db) + (if Nat.eqb (length sitesProp) 0 then 1 else 0))%nat
      /\ Table.get (S (length (sites db))) (sites db')
         = Some {| site_name := name; site_location := location;
                   isActive := Nat.eqb (length sitesProp) 0;
                   site_createdAt := now |}
      /\ forall key, key <> S (length (sites db)) ->
           Table.get key (sites db') = Table.get key (sites db)
  end.
Proof.
  intros db' renamed. subst db'.
  assert (Hadd :
    let db' := set_sites
                 (fun tb => (Table.add {| site_name := name; site_location := location;
                                          isActive := Nat.eqb (length sitesProp) 0;
                                          site_createdAt := now |} tb).2) db in
    activeCount (sites db')
    = (activeCount (sites db) + (if Nat.eqb (length sitesProp) 0 then 1 else 0))%nat
    /\ Table.get (S (length (sites db))) (sites db')
       = Some {| site_name := name; site_location := location;
                 isActive := Nat.eqb (length sitesProp) 0;
                 site_createdAt := now |}
    /\ forall key, key <> S (length (sites db)) ->
         Table.get key (sites db') = Table.get key (sites db)).
  { cbv zeta. split; [| split].
    - exact (activeCount_add _ (sites db)).
    - exact (get_add_new _ (sites db)).
    - intros key Hkey. exact (get_add_old _ (sites db) key Hkey). }
  destruct editingSite as [[[|i] old]|]; [exact Hadd | | exact Hadd].
  unfold handleSaveSite. split.
  - change (sites (set_sites ?f db)) with (f (sites db)).
    by apply activeCount_update_same_flags.
  - intros key.
    change (sites (set_sites ?f db)) with (f (sites db)). rewrite get_update.
    case_decide; [| done]. by destruct (Table.get key (sites db)).
Qed.

(** ** More on reading a table back *)

Lemma get_add_key {A : Type} (row : A) (tb : list (option A)) :
  Table.get (S (length tb)) (Table.add row tb).2 = Some row.
Proof. exact (get_add_new row tb). Qed.

Lemma update_missing {A : Type} key (f : A -> A) (tb : list (option A)) :
  Table.get key tb = None -> Table.update key f tb = tb.
Proof.
  destruct key as [|i]; [done |]. simpl. intros Hget.
  apply list_eq. intros j. rewrite list_lookup_alter.
  case_decide as Hj; [| done]. subst j.
  by destruct (tb !! i) as [[r|]|].
Qed.

Lemma rowsFrom_delete {A : Type} (tb : list (option A)) i n :
  Table.rowsFrom n (<[i := None]> tb)
  = List.filter (fun kr : nat * A => negb (Nat.eqb kr.1 (S (n + i)))) (Table.rowsFrom n tb).
Proof.
  revert i n. induction tb as [|slot tb IH]; intros i n; [by destruct i |].
  assert (Hkeep : forall m, (n < m)%nat ->
            List.filter (fun kr : nat * A => negb (Nat.eqb kr.1 m))
              (Table.rowsFrom m tb) = Table.rowsFrom m tb).
  { intros m _. apply List.forallb_filter_id, List.forallb_forall.
    intros [k r] Hin. apply list_elem_of_In, rowsFrom_keys_above in Hin.
    simpl. apply negb_true_iff, Nat.eqb_neq. lia. }
  destruct i as [|i]; cbn.
  - rewrite Nat.add_0_r. destruct slot as [r|]; cbn.
    + rewrite Nat.eqb_refl. cbn. by rewrite Hkeep by lia.
    + by rewrite Hkeep by lia.
  - rewrite IH. replace (S (S n + i)) with (S (n + S i)) by lia.
    destruct slot as [r|]; cbn; [| done].
    destruct (Nat.eqb_spec n (n + S i)); [lia | done].
Qed.

Lemma toArray_delete {A : Type} key (tb : list (option A)) :
  Table.toArray (Table.delete key tb)
  = List.filter (fun kr : nat * A => negb (Nat.eqb kr.1 key)) (Table.toArray tb).
Proof.
  unfold Table.toArray. destruct key as [|i]; simpl.
  - symmetry. apply List.forallb_filter_id, List.forallb_forall.
    intros [k r] Hin. apply list_elem_of_In, rowsFrom_keys_above in Hin.
    simpl. apply negb_true_iff, Nat.eqb_neq. lia.
  - exact (rowsFrom_delete tb i 0).
Qed.

Lemma head_rowsFrom_alter {A : Type} (f : A -> A) (tb : list (option A)) n key row :
  head (Table.rowsFrom n tb) = Some (key, row) ->
  head (Table.rowsFrom n (alter (fun slot : option A => f <$> slot) (key - S n)%nat tb))
  = Some (key, f row).
Proof.
  revert n. induction tb as [|slot tb IH]; intros n; [done |].
  destruct slot as [r|]; cbn.
  - intros [= <- <-]. by rewrite Nat.sub_diag.
  - intros Hhead.
    assert (S n < key)%nat as Hlt.
    { destruct (Table.rowsFrom (S n) tb) as [|[k r] rest] eqn:Hrows; [done |].
      injection Hhead as -> ->.
      apply (rowsFrom_keys_above tb (S n) key row). rewrite Hrows. left. }
    replace (key - S n)%nat with (S (key - S (S n))) by lia. cbn. by apply IH.
Qed.

Lemma first_update {A : Type} (f : A -> A) (tb : list (option A)) key row :
  Table.first tb = Some (key, row) ->
  Table.first (Table.update key f tb) = Some (key, f row).
Proof.
  unfold Table.first, Table.toArray. intros Hfirst.
  assert (0 < key)%nat as Hkey.
  { destruct (Table.rowsFrom 0 tb) as [|[k r] rest] eqn:Hrows; [done |].
    injection Hfirst as -> ->.
    apply (rowsFrom_keys_above tb 0 key row). rewrite Hrows. left. }
  destruct key as [|i]; [lia |]. simpl.
  pose proof (head_rowsFrom_alter f tb 0 (S i) row Hfirst) as H.
  by replace (S i - 1)%nat with i in H by lia.
Qed.

(** ** Settings: update, then read *)

(** X5. With a settings row in the store, [updateSettings] rewrites the first
    row only: [getSettings] then returns it under the same key with the
    named fields replaced, the others kept and [updatedAt] set to the time
    of the update; every other table is untouched.  For a toggle of the
    settings page that is the toggled flag alone. *)
Theorem settings_update_then_get (updates : SettingsChanges) (key : Toggle)
    (value : bool) (now now' : Timestamp) (db : DB) (id : nat) (s : Settings) :
  Table.first (settings db) = Some (id, s) ->
  getSettings now' (updateSettings updates now db)
  = (Some id,
     {| showVsYesterday := default (showVsYesterday s) (ch_showVsYesterday updates);
        showVsLastWeek := default (showVsLastWeek s) (ch_showVsLastWeek updates);
        showWorkingDays := default (showWorkingDays s) (ch_showWorkingDays updates);
        showProductionComparison :=
          default (showProductionComparison s) (ch_showProductionComparison updates);
        showPurchaseComparison :=
          default (showPurchaseComparison s) (ch_showPurchaseComparison updates);
        theme := default (theme s) (ch_theme updates);
        language := default (language s) (ch_language updates);
        set_updatedAt := now |})
  /\ getSettings now' (handleToggle key value now db)
     = (Some id,
        {| showVsYesterday :=
             match key with tg_showVsYesterday => value | _ => showVsYesterday s end;
           showVsLastWeek :=
             match key with tg_showVsLastWeek => value | _ => showVsLastWeek s end;
           showWorkingDays :=
             match key with tg_showWorkingDays => value | _ => showWorkingDays s end;
           showProductionComparison :=
             match key with
             | tg_showProductionComparison => value
             | _ => showProductionComparison s
             end;
           showPurchaseComparison :=
             match key with
             | tg_showPurchaseComparison => value
             | _ => showPurchaseComparison s
             end;
           theme := theme s; language := language s; set_updatedAt := now |})
  /\ (forall k, k <> id ->
        Table.get k (settings (updateSettings updates now db)) = Table.get k (settings db))
  /\ set_settings (fun _ => settings db) (updateSettings updates now db) = db.
Proof.
  intros Hfirst.
  assert (0 < id)%nat as Hid.
  { unfold Table.first in Hfirst.
    destruct (Table.toArray (settings db)) as [|[k r] rest] eqn:Hrows; [done |].
    injection Hfirst as -> ->.
    apply (rowsFrom_keys_above (settings db) 0 id s).
    unfold Table.toArray in Hrows. rewrite Hrows. left. }
  assert (Hupd : forall u,
            updateSettings u now db
            = set_settings
                (Table.update id
                   (applySettings
                      {| ch_showVsYesterday := ch_showVsYesterday u;
                         ch_showVsLastWeek := ch_showVsLastWeek u;
                         ch_showWorkingDays := ch_showWorkingDays u;
                         ch_showProductionComparison := ch_showProductionComparison u;
                         ch_showPurchaseComparison := ch_showPurchaseComparison u;
                         ch_theme := ch_theme u;
                         ch_language := ch_language u;
                         ch_set_updatedAt := Some now |})) db).
  { intros u. unfold updateSettings. rewrite Hfirst.
    destruct id as [|i]; [lia | done]. }
  assert (Hget : forall u,
            getSettings now' (updateSettings u now db)
            = (Some id,
               applySettings
                 {| ch_showVsYesterday := ch_showVsYesterday u;
                    ch_showVsLastWeek := ch_showVsLastWeek u;
                    ch_showWorkingDays := ch_showWorkingDays u;
                    ch_showProductionComparison := ch_showProductionComparison u;
                    ch_showPurchaseComparison := ch_showPurchaseComparison u;
                    ch_theme := ch_theme u;
                    ch_language := ch_language u;
                    ch_set_updatedAt := Some now |} s)).
  { intros u. rewrite Hupd. unfold getSettings.
    change (settings (set_settings ?f db)) with (f (settings db)).
    by rewrite (first_update _ _ _ _ Hfirst). }
  split; [by rewrite Hget |]. split.
  { unfold handleToggle. rewrite Hget. by destruct key. }
  split.
  - intros k Hk. rewrite Hupd.
    change (settings (set_settings ?f db)) with (f (settings db)).
    rewrite get_update. by rewrite decide_False.
  - rewrite Hupd. by destruct db.
Qed.

(** ** Purchases: the stored receipt is never empty *)

Lemma str_or_truthy a b : truthy a = true -> str_or a b = a.
Proof. unfold str_or. by intros ->. Qed.

Lemma str_or_falsy a b : truthy a = false -> str_or a b = b.
Proof. unfold str_or. by intros ->. Qed.

(** X6. Whatever is submitted, for a new purchase or for an edit, if every
    stored purchase has a receipt photo before [handleSubmit] then every
    stored purchase has one after it. *)
Theorem purchase_receipts_stay_non_empty (Number : string -> Q) (siteId : nat)
    (formData : PurchaseForm) (editingPurchase : option (nat * Purchase))
    (receiptError : bool) (now : Now) (tUpdated tCreated : Timestamp) (db : DB) :
  (forall key p, Table.get key (purchases db) = Some p -> receiptPhoto p <> EmptyString) ->
  forall key p,
    Table.get key
      (purchases (Purchases_handleSubmit Number siteId formData editingPurchase
                    receiptError now tUpdated tCreated db).1) = Some p ->
    receiptPhoto p <> EmptyString.
Proof.
  intros Hinv key p. unfold Purchases_handleSubmit.
  set (editingReceipt :=
         match editingPurchase with Some (_, q) => receiptPhoto q | None => EmptyString end).
  destruct (negb (truthy (pf_receiptPhoto formData)) && negb (truthy editingReceipt))
    eqn:Hguard; [apply Hinv |].
  assert (str_or (pf_receiptPhoto formData) (str_or editingReceipt EmptyString)
          <> EmptyString) as Hphoto.
  { destruct (truthy (pf_receiptPhoto formData)) eqn:Hf.
    - rewrite str_or_truthy by done. by apply truthy_true_iff.
    - rewrite str_or_falsy by done. simpl in Hguard.
      apply negb_false_iff in Hguard.
      rewrite str_or_truthy by done. by apply truthy_true_iff. }
  destruct editingPurchase as [[[|i] old]|].
  - cbn [fst]. change (purchases (set_purchases ?f db)) with (f (purchases db)).
    destruct (decide (key = S (length (purchases db)))) as [-> | Hne].
    + rewrite get_add_key. by intros [= <-].
    + rewrite get_add_old by done. apply Hinv.
  - cbn [fst]. change (purchases (set_purchases ?f db)) with (f (purchases db)).
    rewrite get_update. case_decide; [| apply Hinv].
    destruct (Table.get key (purchases db)); simpl; [| done]. by intros [= <-].
  - cbn [fst]. change (purchases (set_purchases ?f db)) with (f (purchases db)).
    destruct (decide (key = S (length (purchases db)))) as [-> | Hne].
    + rewrite get_add_key. by intros [= <-].
    + rewrite get_add_old by done. apply Hinv.
Qed.

(** X7. Editing a stored purchase keeps its key and its creation stamp, takes
    item, amount, currency, supplier, category and notes from the form,
    restamps the purchase date and time with the current ones, and keeps the
    stored receipt unless the form brings a new one.  No row is added and
    no other purchase changes. *)
Theorem purchase_edit_keeps_receipt (Number : string -> Q) (siteId : nat)
    (formData : PurchaseForm) (key : nat) (old : Purchase) (receiptError : bool)
    (now : Now) (tUpdated tCreated : Timestamp) (db : DB) :
  Table.get key (purchases db) = Some old ->
  receiptPhoto old <> EmptyString ->
  let result :=
    Purchases_handleSubmit Number siteId formData (Some (key, old)) receiptError
      now tUpdated tCreated db in
  result.2 = false
  /\ Table.get key (purchases result.1)
     = Some {| pur_siteId := siteId;
               item := pf_item formData;
               amount := Number (pf_amount formData);
               currency := pf_currency formData;
               supplier := pf_supplier formData;
               pur_category := pf_category formData;
               receiptPhoto :=
                 if String.eqb (pf_receiptPhoto formData) EmptyString
                 then receiptPhoto old else pf_receiptPhoto formData;
               purchaseDate := now_date now;
               purchaseTime := now_time now;
               pur_notes := pf_notes formData;
               pur_createdAt := pur_createdAt old;
               pur_updatedAt := tUpdated |}
  /\ (forall k, k <> key ->
        Table.get k (purchases result.1) = Table.get k (purchases db))
  /\ length (purchases result.1) = length (purchases db).
Proof.
  intros Hget Hold result. subst result.
  destruct key as [|i]; [done |].
  apply truthy_true_iff in Hold.
  unfold Purchases_handleSubmit. cbn [receiptPhoto].
  rewrite Hold, andb_false_r. cbn [fst snd].
  change (purchases (set_purchases ?f db)) with (f (purchases db)).
  split; [done |]. split; [| split].
  - rewrite get_update, decide_True by done. rewrite Hget. cbn [fmap option_fmap option_map].
    do 2 f_equal. unfold str_or, truthy.
    destruct (String.eqb (pf_receiptPhoto formData) EmptyString); simpl; [| done].
    unfold truthy in Hold. by rewrite Hold.
  - intros k Hk. rewrite get_update. by rewrite decide_False.
  - simpl. apply length_alter.
Qed.

(** ** Deleting one row *)

(** X8. A confirmed [handleDelete] removes the row of that key and nothing
    else: the other rows stay under their keys and in their order, the
    other tables are untouched; without the confirmation the store is as it
    was.  The same holds on the production, inventory, workers and
    purchases pages. *)
Theorem delete_row_removes_only_that_row (confirmed : bool) (id : nat) (db : DB) :
  (forall key,
     Table.get key (productions (Production_handleDelete confirmed id db))
     = if confirmed && Nat.eqb key id then None else Table.get key (productions db))
  /\ (forall key,
        Table.get key (inventory (Inventory_handleDelete confirmed id db))
        = if confirmed && Nat.eqb key id then None else Table.get key (inventory db))
  /\ (forall key,
        Table.get key (workers (Workers_handleDelete confirmed id db))
        = if confirmed && Nat.eqb key id then None else Table.get key (workers db))
  /\ (forall key,
        Table.get key (purchases (Purchases_handleDelete confirmed id db))
        = if confirmed && Nat.eqb key id then None else Table.get key (purchases db))
  /\ Table.toArray (productions (Production_handleDelete true id db))
     = List.filter (fun kr : nat * Production => negb (Nat.eqb kr.1 id))
         (Table.toArray (productions db))
  /\ set_productions (fun _ => productions db) (Production_handleDelete confirmed id db) = db
  /\ set_inventory (fun _ => inventory db) (Inventory_handleDelete confirmed id db) = db
  /\ set_workers (fun _ => workers db) (Workers_handleDelete confirmed id db) = db
  /\ set_purchases (fun _ => purchases db) (Purchases_handleDelete confirmed id db) = db.
Proof.
  assert (Hget : forall (A : Type) (tb : list (option A)) key,
            Table.get key (if confirmed then Table.delete id tb else tb)
            = if confirmed && Nat.eqb key id then None else Table.get key tb).
  { intros A tb key. destruct confirmed; [| done]. rewrite get_delete. simpl.
    case_decide as Hk; [subst; by rewrite Nat.eqb_refl |].
    apply Nat.eqb_neq in Hk. by rewrite Hk. }
  repeat split.
  - intros key. rewrite <- Hget. by destruct confirmed.
  - intros key. rewrite <- Hget. by destruct confirmed.
  - intros key. rewrite <- Hget. by destruct confirmed.
  - intros key. rewrite <- Hget. by destruct confirmed.
  - exact (toArray_delete id (productions db)).
  - by destruct confirmed, db.
  - by destruct confirmed, db.
  - by destruct confirmed, db.
  - by destruct confirmed, db.
Qed.

Lemma Production_handleSubmit_add Number siteId form tU tC db :
  productions (Production_handleSubmit Number siteId form None tU tC db)
  = (Table.add
       {| prod_siteId := siteId; prod_date := prf_date form;
          quantityGrams := Number (prf_quantityGrams form);
          prod_team := prf_team form; prod_shift := prf_shift form;
          prod_notes := prf_notes form;
          prod_createdAt := tC; prod_updatedAt := tU |} (productions db)).2.
Proof. reflexivity. Qed.

(** X9. Saving the form of a production that has been deleted in the meantime
    changes nothing (the store skips an update of a missing key), and a
    production added afterwards does not take over the deleted key. *)
Theorem stale_edit_after_delete (Number : string -> Q) (siteId : nat)
    (form : ProductionForm) (id : nat) (old : Production)
    (tUpdated tCreated : Timestamp) (db : DB) :
  Table.get id (productions db) = Some old ->
  let db1 := Production_handleDelete true id db in
  Production_handleSubmit Number siteId form (Some (id, old)) tUpdated tCreated db1 = db1
  /\ Table.get id
       (productions (Production_handleSubmit Number siteId form None tUpdated tCreated db1))
     = None
  /\ (forall other row,
        Table.get other (productions db) = None ->
        other <> 0%nat ->
        Production_handleSubmit Number siteId form (Some (other, row)) tUpdated tCreated db
        = db).
Proof.
  intros Hget db1. subst db1.
  assert (Hstale : forall db0 other row,
            Table.get other (productions db0) = None -> other <> 0%nat ->
            Production_handleSubmit Number siteId form (Some (other, row))
              tUpdated tCreated db0 = db0).
  { intros db0 [|i] row Hnone Hne; [done |].
    unfold Production_handleSubmit, set_productions.
    rewrite update_missing by done. by destruct db0. }
  assert (id <> 0%nat) as Hid by (by destruct id).
  assert (id <= length (productions db))%nat as Hlen.
  { destruct (decide (id <= length (productions db))%nat) as [Hle | Hgt]; [done |].
    rewrite get_beyond in Hget by lia. done. }
  split; [| split].
  - apply Hstale; [| done]. simpl. rewrite get_delete. by rewrite decide_True.
  - rewrite Production_handleSubmit_add, get_add_old.
    + simpl. rewrite get_delete. by rewrite decide_True.
    + destruct id as [|i]; [done |]. simpl. rewrite length_insert. lia.
  - intros other row Hnone Hne. by apply Hstale.
Qed.

(** ** Workers form *)

(** X10. A new worker is stored under the next key with the fields of the form
    and the two stamps; an edit overwrites the fields of the form, restamps
    [updatedAt] and keeps [createdAt]; in both cases the other workers and
    the other tables are as before. *)
Theorem worker_form_round_trip (siteId : nat) (form : WorkerForm)
    (key : nat) (old : Worker) (tUpdated tCreated : Timestamp) (db : DB) :
  let added := Workers_handleSubmit siteId form None tUpdated tCreated db in
  let edited := Workers_handleSubmit siteId form (Some (key, old)) tUpdated tCreated db in
  let fromForm := fun created : Timestamp =>
    {| wk_siteId := siteId; firstName := wf_firstName form;
       lastName := wf_lastName form; wk_role := wf_role form;
       wk_phone := wf_phone form; wk_team := wf_team form;
       wk_status := wf_status form; hireDate := wf_hireDate form;
       wk_createdAt := created; wk_updatedAt := tUpdated |} in
  Table.get (S (length (workers db))) (workers added) = Some (fromForm tCreated)
  /\ (forall k, k <> S (length (workers db)) ->
        Table.get k (workers added) = Table.get k (workers db))
  /\ set_workers (fun _ => workers db) added = db
  /\ (Table.get key (workers db) = Some old ->
      Table.get key (workers edited) = Some (fromForm (wk_createdAt old))
      /\ (forall k, k <> key -> Table.get k (workers edited) = Table.get k (workers db))
      /\ length (workers edited) = length (workers db)
      /\ set_workers (fun _ => workers db) edited = db).
Proof.
  intros added edited fromForm. subst added edited.
  split; [exact (get_add_new _ (workers db)) |].
  split; [intros k Hk; exact (get_add_old _ (workers db) k Hk) |].
  split; [by destruct db |].
  intros Hget. destruct key as [|i]; [done |].
  unfold Workers_handleSubmit.
  change (workers (set_workers ?f db)) with (f (workers db)).
  split; [| split; [| split]].
  - rewrite get_update, decide_True by done. by rewrite Hget.
  - intros k Hk. rewrite get_update. by rewrite decide_False.
  - simpl. apply length_alter.
  - by destruct db.
Qed.

(** ** Report: totals by team and by shift *)

Lemma sum_from (rows : list (nat * Production)) (a : Q) :
  (fold_left (fun sum kr => sum + quantityGrams kr.2) rows a == a + sumGrams rows)%Q.
Proof.
  unfold sumGrams. revert a. induction rows as [|kr rows IH]; intros a; simpl.
  - lra.
  - rewrite IH, (IH (0 + quantityGrams kr.2)%Q). lra.
Qed.

Lemma sumGrams_cons kr rows :
  (sumGrams (kr :: rows) == quantityGrams kr.2 + sumGrams rows)%Q.
Proof. unfold sumGrams at 1. simpl. rewrite sum_from. lra. Qed.

Lemma sumGrams_nonneg rows :
  (forall kr, In kr rows -> 0 <= quantityGrams kr.2)%Q -> (0 <= sumGrams rows)%Q.
Proof.
  induction rows as [|kr rows IH]; intros Hq; [discriminate |].
  rewrite sumGrams_cons.
  pose proof (Hq kr (or_introl eq_refl)).
  pose proof (IH (fun k Hk => Hq k (or_intror Hk))). lra.
Qed.





(** ** Report: shares and counts stay in range *)




(** ** Daily average: defined and bounded *)


(** ** The range filter *)

Lemma leb_empty_r (s : string) : String.leb s EmptyString = true <-> s = EmptyString.
Proof. destruct s; simpl; split; done. Qed.

(** X14. The range filter of the report compares the date texts.  When the two
    bounds and the date of a production are calendar dates, the production
    is kept exactly when its day lies between the days of the bounds,
    bounds included.  A cleared start bound (the empty text) lets every
    date up to the end bound through; a cleared end bound lets no dated
    production through. *)
Theorem range_filter_by_days_and_empty_bounds (dateRange : DateRange) (p : Production) :
  (forall dStart dEnd d,
     Date.dayNumber (range_start dateRange) = Some dStart ->
     Date.dayNumber (range_end dateRange) = Some dEnd ->
     Date.dayNumber (prod_date p) = Some d ->
     (inRange dateRange p = true <-> dStart <= d <= dEnd))
  /\ (range_start dateRange = EmptyString ->
      inRange dateRange p = String.leb (prod_date p) (range_end dateRange))
  /\ (range_end dateRange = EmptyString ->
      (inRange dateRange p = true
       <-> prod_date p = EmptyString /\ range_start dateRange = EmptyString)).
Proof.
  unfold inRange, JS.str_ge, JS.str_le. split; [| split].
  - intros dStart dEnd d Hs He Hd.
    rewrite andb_true_iff.
    rewrite (iso_order_is_calendar_order _ _ _ _ Hs Hd).
    rewrite (iso_order_is_calendar_order _ _ _ _ Hd He). tauto.
  - intros ->. by destruct (prod_date p).
  - intros ->. rewrite andb_true_iff, leb_empty_r. split.
    + intros [Hs Hd]. rewrite Hd in Hs. by apply leb_empty_r in Hs.
    + by intros [-> ->].
Qed.

(** ** Dashboard: change badges and target progress *)





(** ** Dashboard: one site, two weeks, one month *)

Lemma filterToArray_deleteWhere {A : Type} (test : A -> bool) (tb : list (option A)) :
  Table.filterToArray test (Table.deleteWhere test tb) = [].
Proof.
  destruct (Table.filterToArray test (Table.deleteWhere test tb)) as [|[k r] rest] eqn:Hrows;
    [done |].
  assert ((k, r) ∈ Table.filterToArray test (Table.deleteWhere test tb)) as Hin
    by (rewrite Hrows; left).
  apply elem_of_filterToArray in Hin as [Hget Htest].
  rewrite get_deleteWhere in Hget.
  destruct (Table.get k tb) as [r0|]; simpl in Hget; [| done].
  destruct (test r0) eqn:Hr0; [done |]. injection Hget as ->. congruence.
Qed.

Lemma toArray_add {A : Type} (row : A) (tb : list (option A)) :
  Table.toArray (Table.add row tb).2 = Table.toArray tb ++ [(S (length tb), row)].
Proof. unfold Table.toArray. simpl. by rewrite rowsFrom_app. Qed.

Lemma filterToArray_add_other {A : Type} (test : A -> bool) (row : A)
    (tb : list (option A)) :
  test row = false ->
  Table.filterToArray test (Table.add row tb).2 = Table.filterToArray test tb.
Proof.
  intros Htest. unfold Table.filterToArray.
  rewrite toArray_add, List.filter_app. simpl. rewrite Htest. apply app_nil_r.
Qed.



(** X17. The dashboard of a site reads the rows of that site only.  After the
    site has been deleted every figure of its dashboard is zero, and a
    production saved for another site changes nothing on it. *)
Theorem dashboard_is_site_scoped (Number : string -> Q) (siteId : nat)
    (clk : DashboardClock) (now : Timestamp) (db : DB) :
  (forall sitesProp activeSiteId,
     (1 < length sitesProp)%nat ->
     (loadData siteId clk now (handleDeleteSite sitesProp activeSiteId true siteId db)).2
     = {| todayProduction := 0; yesterdayProduction := 0; weekProduction := 0;
          lastWeekProduction := 0; monthProduction := 0; stat_activeWorkers := 0;
          todayPurchases := 0; yesterdayPurchases := 0; workingDaysThisMonth := 0;
          dailyTarget := 300 |})
  /\ (forall otherSite form tUpdated tCreated,
        otherSite <> siteId ->
        loadData siteId clk now
          (Production_handleSubmit Number otherSite form None tUpdated tCreated db)
        = loadData siteId clk now db).
Proof.
  split.
  - intros sitesProp activeSiteId Hlen.
    assert (Htables :
      productions (handleDeleteSite sitesProp activeSiteId true siteId db)
      = Table.deleteWhere (fun p => Nat.eqb (prod_siteId p) siteId) (productions db)
      /\ workers (handleDeleteSite sitesProp activeSiteId true siteId db)
         = Table.deleteWhere (fun w => Nat.eqb (wk_siteId w) siteId) (workers db)
      /\ purchases (handleDeleteSite sitesProp activeSiteId true siteId db)
         = Table.deleteWhere (fun p => Nat.eqb (pur_siteId p) siteId) (purchases db)).
    { destruct (handleDeleteSite_cases sitesProp activeSiteId siteId db Hlen)
        as [-> | (other & _ & ->)]; done. }
    destruct Htables as (Hp & Hw & Hpu).
    unfold loadData. rewrite Hp, Hw, Hpu, !filterToArray_deleteWhere. reflexivity.
  - intros otherSite form tU tC Hne. unfold loadData.
    rewrite Production_handleSubmit_add.
    rewrite filterToArray_add_other; [done |].
    simpl. by apply Nat.eqb_neq.
Qed.



(** ** Session roles: flags, loading, updating *)

(** The three role flags of the context are the answers of [canAccess] for
    the three roles, and access is monotone: whoever may access what a role
    requires may access what every lower role requires. *)
Theorem role_flags_agree_with_canAccess (st : AuthState) (r1 r2 : UserRole) :
  isAdmin st = canAccess st admin
  /\ isSupervisor st = canAccess st supervisor
  /\ isWorker st = canAccess st worker
  /\ (roleHierarchy r2 <= roleHierarchy r1 ->
      canAccess st r1 = true -> canAccess st r2 = true).
Proof.
  unfold isAdmin, isSupervisor, isWorker, canAccess.
  repeat split; try (by destruct (viewMode st)).
  rewrite !Z.geb_le. lia.
Qed.

(** X20. [loadUser] always ends with a user, shown under the user's own role and
    saved; a saved user is loaded as saved, whatever the clock and the
    store say (the default administrator is created once); a change made
    by [updateUser] is what the next load returns; and [updateUser] without
    a loaded user does nothing. *)
Theorem user_is_created_once_and_persisted (now now' : Timestamp) (db db' : DB)
    (updates : UserChanges) (st : AuthStore) :
  let loaded := loadUser now db st in
  (exists u, user (auth loaded) = Some u
             /\ viewMode (auth loaded) = role u
             /\ savedUser loaded = Some u
             /\ (savedUser st = None -> role u = admin /\ user_createdAt u = now)
             /\ (forall saved, savedUser st = Some saved -> u = saved))
  /\ loadUser now' db' loaded = loaded
  /\ (forall u, user (auth loaded) = Some u ->
        user (auth (loadUser now' db' (updateUser updates loaded)))
        = Some (applyUser updates u)
        /\ viewMode (auth (updateUser updates loaded)) = viewMode (auth loaded))
  /\ (user (auth st) = None -> updateUser updates st = st).
Proof.
  intros loaded. subst loaded. unfold loadUser.
  destruct (savedUser st) as [saved|] eqn:Hsaved; cbn.
  - split; [exists saved; repeat split; try done; by intros ? [= ->] |].
    split; [done |]. split; [| by unfold updateUser; intros ->].
    intros u [= <-]. done.
  - split; [eexists; repeat split; try done |].
    split; [done |]. split; [| by unfold updateUser; intros ->].
    intros u [= <-]. done.
Qed.

Lemma sessionInvariant_loadUser now db st : sessionInvariant (loadUser now db st).
Proof.
  unfold loadUser, sessionInvariant.
  destruct (savedUser st) as [saved|] eqn:Hsaved; cbn; eexists; eauto.
Qed.

Lemma sessionInvariant_step st op : sessionInvariant st -> sessionInvariant (sessionStep st op).
Proof.
  intros (u & Hu & Hs & Hrole). destruct op as [now db | formData | mode]; simpl.
  - apply sessionInvariant_loadUser.
  - unfold handleSaveProfile, updateUser. rewrite Hu. cbn.
    eexists. split; [done |]. split; [done |]. cbn. exact Hrole.
  - unfold roleSwitchClick. rewrite Hu.
    destruct (role u) eqn:Hr; [| exists u; by rewrite Hr | exists u; by rewrite Hr].
    exists u. cbn. rewrite Hr. auto.
Qed.

(** X21. After the user has been loaded, and whatever is then done on the
    profile page or by reloading, the user shown is the user saved, and the
    view mode differs from the stored role only for a stored administrator:
    the effective level never exceeds the level of the stored role. *)
Theorem effective_role_never_exceeds_stored_role (now : Timestamp) (db : DB)
    (ops : list SessionOp) (st : AuthStore) :
  let st' := fold_left sessionStep ops (loadUser now db st) in
  exists u, user (auth st') = Some u
            /\ savedUser st' = Some u
            /\ (role u <> admin -> viewMode (auth st') = role u)
            /\ roleHierarchy (viewMode (auth st')) <= roleHierarchy (role u)
            /\ (forall required,
                  canAccess (auth st') required = true ->
                  roleHierarchy required <= roleHierarchy (role u)).
Proof.
  intros st'.
  assert (sessionInvariant st') as (u & Hu & Hs & Hrole).
  { subst st'. generalize (sessionInvariant_loadUser now db st).
    generalize (loadUser now db st). induction ops as [|op ops IH]; intros s Hs; [done |].
    simpl. apply IH. by apply sessionInvariant_step. }
  exists u. split; [done |]. split; [done |].
  assert (roleHierarchy (viewMode (auth st')) <= roleHierarchy (role u)) as Hlevel.
  { destruct Hrole as [-> | ->]; [| lia]. by destruct (viewMode (auth st')). }
  split; [intros Hne; by destruct Hrole |]. split; [exact Hlevel |].
  intros required. unfold canAccess. rewrite Z.geb_le. lia.
Qed.

(** ** Navigation *)

(** X22. Until the application is initialised and a site is active every page
    shows the skeleton.  After that the settings page is rendered for the
    admin view only, the workers, inventory, purchases and reports pages
    for the supervisor and admin views only, and a worker view gets the
    dashboard in their place. *)
Theorem gated_pages_need_their_role (isInitialized : bool) (activeSiteId : nat)
    (currentPage : Page) (st : AuthState) :
  (isInitialized = false \/ activeSiteId = 0%nat ->
   renderPage isInitialized activeSiteId currentPage st = SkeletonView)
  /\ (renderPage isInitialized activeSiteId currentPage st = SettingsView ->
      canAccess st admin = true)
  /\ (In (renderPage isInitialized activeSiteId currentPage st)
        [WorkersView; InventoryView; PurchasesView; DailyReportsView] ->
      canAccess st supervisor = true)
  /\ (viewMode st = worker ->
      In (renderPage isInitialized activeSiteId currentPage st)
        [SkeletonView; DashboardView; ProductionView; ProfileView; AttendanceView]).
Proof.
  unfold renderPage, isAdmin, isSupervisor, canAccess.
  split; [| split; [| split]].
  - intros [-> | ->]; [done |]. by rewrite orb_true_r.
  - destruct (negb isInitialized || Nat.eqb activeSiteId 0); [done |].
    destruct currentPage, (viewMode st); done.
  - destruct (negb isInitialized || Nat.eqb activeSiteId 0); simpl;
      [intuition discriminate |].
    destruct currentPage, (viewMode st); simpl; intuition discriminate.
  - intros ->. destruct (negb isInitialized || Nat.eqb activeSiteId 0); simpl; [tauto |].
    destruct currentPage; simpl; tauto.
Qed.

(** X23. Every page offered by the sidebar or by the bottom navigation opens its
    own view for the role it is offered to (none falls back to the
    dashboard), the bottom navigation offers nothing that the sidebar does
    not, and the dashboard, attendance, production and profile pages are
    in the sidebar of every role. *)
Theorem menu_items_open_their_page (activeSiteId : nat) (p : Page) (st : AuthState) :
  activeSiteId <> 0%nat ->
  (In p (getSidebarItems st) -> renderPage true activeSiteId p st = viewOf p)
  /\ (In p (getNavItems st) -> In p (getSidebarItems st))
  /\ (In p [pg_dashboard; pg_attendance; pg_production; pg_profile] ->
      In p (getSidebarItems st))
  /\ (In pg_settings (getSidebarItems st) <-> viewMode st = admin).
Proof.
  intros Hsite. apply Nat.eqb_neq in Hsite.
  unfold renderPage, getSidebarItems, getNavItems, isAdmin, isSupervisor.
  rewrite Hsite. simpl.
  destruct (viewMode st), p; simpl; repeat split; try tauto; try done;
    intros; intuition discriminate.
Qed.

(** ** Attendance *)

Lemma find_app_none {A : Type} (test : A -> bool) (l1 l2 : list A) :
  List.find test l1 = None -> List.find test (l1 ++ l2) = List.find test l2.
Proof.
  induction l1 as [|x l1 IH]; [done |]. simpl.
  destruct (test x); [done | exact IH].
Qed.

Lemma find_app_some {A : Type} (test : A -> bool) (l1 l2 : list A) x :
  List.find test l1 = Some x -> List.find test (l1 ++ l2) = Some x.
Proof.
  induction l1 as [|y l1 IH]; [done |]. simpl.
  destruct (test y); [done | exact IH].
Qed.

Lemma find_map_same {A : Type} (test : A -> bool) (f : A -> A) (l : list A) :
  (forall x, test (f x) = test x) ->
  List.find test (List.map f l) = f <$> List.find test l.
Proof.
  intros Hf. induction l as [|x l IH]; [done |]. simpl.
  rewrite Hf. destruct (test x); [done | exact IH].
Qed.

(** X24. Checking out stamps the open records of the user with the time and
    touches nothing else: the list keeps its length and order, the records
    of other workers and the records already closed are as before, and the
    records of other sites and days in the storage are untouched.  With a
    time that is not empty no record of the user stays open. *)
Theorem check_out_closes_only_own_open_records (siteId : nat) (clk : AttendanceClock)
    (u : option User) (pg : AttendancePage) :
  let pg' := handleCheckOut siteId clk u pg in
  length (todayRecords pg') = length (todayRecords pg)
  /\ (forall i r,
        todayRecords pg !! i = Some r ->
        todayRecords pg' !! i
        = Some (if isOf u r && isOpen r
                then {| att_id := att_id r; att_siteId := att_siteId r;
                        att_date := att_date r; checkIn := checkIn r;
                        checkOut := Some (ac_time clk);
                        workerId := workerId r; workerName := workerName r;
                        att_status := att_status r |}
                else r))
  /\ attendanceStorage pg' !! (siteId, ac_today clk) = Some (todayRecords pg')
  /\ (forall key, key <> (siteId, ac_today clk) ->
        attendanceStorage pg' !! key = attendanceStorage pg !! key)
  /\ isCheckedIn pg' = false
  /\ (ac_time clk <> EmptyString ->
      forall r, In r (todayRecords pg') -> isOf u r = true -> isOpen r = false).
Proof.
  intros pg'. subst pg'. unfold handleCheckOut. cbn.
  split; [apply List.length_map |]. split.
  { intros i r Hi.
    change (List.map ?f ?l !! i) with ((f <$> l) !! i).
    by rewrite list_lookup_fmap, Hi. }
  split; [apply lookup_insert_eq |]. split.
  { intros key Hkey. by rewrite lookup_insert_ne. }
  split; [done |].
  intros Htime r Hin Hof. apply List.in_map_iff in Hin as (r0 & <- & _).
  apply truthy_true_iff in Htime.
  destruct (isOf u r0 && isOpen r0) eqn:Hc.
  - unfold isOpen. cbn. by rewrite Htime.
  - rewrite Hof in Hc. exact Hc.
Qed.

(** X25. Checking in appends one open record for the user and stores the list.
    When the user had no record that day, loading the page again shows the
    user as checked in since that time, and after a check-out as not
    checked in.  When the user already had a record that day, loading shows
    the state of that first record, not of the new one. *)
Theorem check_in_then_reload (siteId : nat) (clk clk' : AttendanceClock)
    (usr : User) (pg : AttendancePage) :
  let u := Some usr in
  let pg1 := handleCheckIn siteId clk u pg in
  let reload := loadTodayAttendance siteId (ac_today clk) u in
  (exists r, todayRecords pg1 = todayRecords pg ++ [r]
             /\ isOf u r = true /\ isOpen r = true /\ checkIn r = ac_time clk
             /\ att_status r = (if 9 <=? ac_hours clk then att_late else att_present))
  /\ attendanceStorage pg1 !! (siteId, ac_today clk) = Some (todayRecords pg1)
  /\ (List.find (isOf u) (todayRecords pg) = None ->
      isCheckedIn (reload pg1) = true
      /\ checkInTime (reload pg1) = Some (ac_time clk)
      /\ todayRecords (reload pg1) = todayRecords pg1
      /\ (ac_today clk' = ac_today clk -> ac_time clk' <> EmptyString ->
          isCheckedIn (reload (handleCheckOut siteId clk' u pg1)) = false
          /\ checkInTime (reload (handleCheckOut siteId clk' u pg1)) = Some (ac_time clk)))
  /\ (forall first,
        List.find (isOf u) (todayRecords pg) = Some first ->
        isCheckedIn (reload pg1) = isOpen first
        /\ checkInTime (reload pg1) = Some (checkIn first)).
Proof.
  intros u pg1 reload. subst u pg1 reload.
  set (r := {| att_id := ac_nowMs clk; att_siteId := siteId; att_date := ac_today clk;
               checkIn := ac_time clk; checkOut := None; workerId := user_id usr;
               workerName := user_firstName usr +:+ " " +:+ user_lastName usr;
               att_status := if 9 <=? ac_hours clk then att_late else att_present |}).
  assert (isOf (Some usr) r = true) as Hof by apply Nat.eqb_refl.
  split.
  { exists r. repeat split; try done. }
  split; [apply lookup_insert_eq |]. split.
  - intros Hnone.
    assert (Hload : forall pgx records,
              attendanceStorage pgx !! (siteId, ac_today clk) = Some records ->
              forall mine, List.find (isOf (Some usr)) records = Some mine ->
              isCheckedIn (loadTodayAttendance siteId (ac_today clk) (Some usr) pgx)
              = isOpen mine
              /\ checkInTime (loadTodayAttendance siteId (ac_today clk) (Some usr) pgx)
                 = Some (checkIn mine)
              /\ todayRecords (loadTodayAttendance siteId (ac_today clk) (Some usr) pgx)
                 = records).
    { intros pgx records Hst mine Hfind. unfold loadTodayAttendance.
      by rewrite Hst, Hfind. }
    assert (List.find (isOf (Some usr)) (todayRecords pg ++ [r]) = Some r) as Hfind.
    { rewrite find_app_none by done. cbn [List.find]. by rewrite Hof. }
    destruct (Hload (handleCheckIn siteId clk (Some usr) pg) (todayRecords pg ++ [r])
                (lookup_insert_eq _ _ _) r Hfind) as (H1 & H2 & H3).
    split; [exact H1 |]. split; [exact H2 |]. split; [exact H3 |].
    intros Hday Htime.
    set (closed := {| att_id := att_id r; att_siteId := att_siteId r;
                      att_date := att_date r; checkIn := checkIn r;
                      checkOut := Some (ac_time clk');
                      workerId := workerId r; workerName := workerName r;
                      att_status := att_status r |}).
    assert (Hstore :
      attendanceStorage (handleCheckOut siteId clk' (Some usr)
                           (handleCheckIn siteId clk (Some usr) pg))
        !! (siteId, ac_today clk)
      = Some (todayRecords (handleCheckOut siteId clk' (Some usr)
                              (handleCheckIn siteId clk (Some usr) pg)))).
    { unfold handleCheckOut. cbn. rewrite Hday. apply lookup_insert_eq. }
    assert (Hfind' :
      List.find (isOf (Some usr))
        (todayRecords (handleCheckOut siteId clk' (Some usr)
                         (handleCheckIn siteId clk (Some usr) pg)))
      = Some closed).
    { unfold handleCheckOut. cbn [todayRecords].
      rewrite find_map_same.
      - change (todayRecords (handleCheckIn siteId clk (Some usr) pg))
          with (todayRecords pg ++ [r]).
        rewrite Hfind. cbn [fmap option_fmap option_map]. rewrite Hof. done.
      - intros x. by destruct (isOf (Some usr) x && isOpen x). }
    destruct (Hload _ _ Hstore closed Hfind') as (H1' & H2' & _).
    split; [| exact H2'].
    rewrite H1'. unfold isOpen. cbn. apply truthy_true_iff in Htime. by rewrite Htime.
  - intros first Hfirst. unfold loadTodayAttendance, handleCheckIn. cbn.
    rewrite lookup_insert_eq. fold r.
    by rewrite (find_app_some _ _ _ _ Hfirst).
Qed.

(** ** Seeding *)



Lemma countRows_add {A : Type} (row : A) (tb : Table.t A) :
  countRows (Table.add row tb).2 = S (countRows tb).
Proof. unfold countRows. rewrite toArray_add, length_app. simpl. lia. Qed.

(** X26. [seedDatabase] does nothing to a store that has a site, leaves at least
    one site in every store, and therefore changes nothing when it is run
    again, whatever the clock and the random numbers. *)
Theorem seed_runs_once (inp inp' : SeedInputs) (db : DB) :
  (countRows (sites db) <> 0%nat -> seedDatabase inp db = db)
  /\ countRows (sites (seedDatabase inp db)) <> 0%nat
  /\ seedDatabase inp' (seedDatabase inp db) = seedDatabase inp db.
Proof.
  assert (H1 : forall i d, countRows (sites d) <> 0%nat -> seedDatabase i d = d).
  { intros i d Hn. unfold seedDatabase. apply Nat.eqb_neq in Hn. by rewrite Hn. }
  assert (H2 : countRows (sites (seedDatabase inp db)) <> 0%nat).
  { unfold seedDatabase. destruct (Nat.eqb_spec (countRows (sites db)) 0) as [Hz | Hnz];
      [| done].
    cbn [sites]. rewrite countRows_add. lia. }
  split; [apply H1 |]. split; [exact H2 |]. by apply H1.
Qed.


(** ** Reading the export back *)

Lemma splitOn_nonempty sep s : splitOn sep s <> [].
Proof.
  destruct s as [|c s]; simpl; [done |].
  destruct (Ascii.eqb c sep); [done |]. by destruct (splitOn sep s).
Qed.

Lemma splitOn_free sep s : freeOf sep s = true -> splitOn sep s = [s].
Proof.
  induction s as [|c s IH]; simpl; [done |].
  intros [Hc Hs]%andb_true_iff. apply negb_true_iff in Hc. rewrite Hc.
  by rewrite (IH Hs).
Qed.

Lemma splitOn_cell sep cell rest :
  freeOf sep cell = true ->
  splitOn sep (cell +:+ String sep rest) = cell :: splitOn sep rest.
Proof.
  induction cell as [|c cell IH]; simpl.
  - intros _. by rewrite Ascii.eqb_refl.
  - intros [Hc Hs]%andb_true_iff. apply negb_true_iff in Hc. rewrite Hc.
    by rewrite (IH Hs).
Qed.

Lemma splitOn_concat_cell sep cell rest :
  freeOf sep cell = true ->
  splitOn sep (cell +:+ String sep EmptyString +:+ rest) = cell :: splitOn sep rest.
Proof. apply splitOn_cell. Qed.

Lemma length_splitOn sep s : length (splitOn sep s) = S (countChar sep s).
Proof.
  induction s as [|c s IH]; simpl; [done |].
  destruct (Ascii.eqb c sep); simpl; [by rewrite IH |].
  destruct (splitOn sep s) eqn:Hs; [by apply splitOn_nonempty in Hs |].
  simpl in *. lia.
Qed.

Lemma countChar_app sep s1 s2 :
  countChar sep (s1 +:+ s2) = (countChar sep s1 + countChar sep s2)%nat.
Proof. induction s1 as [|c s1 IH]; simpl; [done |]. rewrite IH. lia. Qed.

Lemma freeOf_count sep s : freeOf sep s = true <-> countChar sep s = 0%nat.
Proof.
  induction s as [|c s IH]; simpl; [done |].
  rewrite andb_true_iff, IH.
  destruct (Ascii.eqb c sep); simpl; intuition (discriminate || lia).
Qed.

(** X28. A line of the export splits at the commas into five cells plus one
    cell for every comma inside the date, the printed quantity, the team
    or the notes.  So the five cells are read back as written exactly when
    none of them holds a comma; one comma in the notes already yields a
    sixth cell. *)
Theorem csv_line_reads_back (numberToString : Q -> string) (p : Production) :
  let cells := csvRow numberToString p in
  let line := String.concat "," cells in
  let commas :=
    (countChar "," (prod_date p) + countChar "," (numberToString (quantityGrams p))
     + countChar "," (prod_team p) + countChar "," (prod_notes p))%nat in
  length (splitOn "," line) = (5 + commas)%nat
  /\ (commas = 0%nat -> splitOn "," line = cells)
  /\ (splitOn "," line = cells -> commas = 0%nat).
Proof.
  intros cells line commas.
  assert (countChar "," (shiftName (prod_shift p)) = 0%nat) as Hshift
    by (by destruct (prod_shift p)).
  assert (length (splitOn "," line) = (5 + commas)%nat) as Hlen.
  { subst line cells commas. unfold csvRow. cbn [String.concat].
    rewrite length_splitOn, !countChar_app. simpl countChar at 2 4 6 8.
    rewrite Hshift. lia. }
  split; [exact Hlen |]. split.
  - intros Hz. subst commas.
    assert (freeOf "," (prod_date p) = true
            /\ freeOf "," (numberToString (quantityGrams p)) = true
            /\ freeOf "," (prod_team p) = true
            /\ freeOf "," (shiftName (prod_shift p)) = true
            /\ freeOf "," (prod_notes p) = true) as (H1 & H2 & H3 & H4 & H5).
    { rewrite !freeOf_count. lia. }
    subst line cells. unfold csvRow. cbn [String.concat].
    rewrite !splitOn_concat_cell by done. by rewrite splitOn_free.
  - intros Heq. rewrite Heq in Hlen. subst cells. simpl in Hlen. lia.
Qed.

(** ** Application shell *)

Lemma find_active_unique (tb : Table.t Site) id s :
  Table.get id tb = Some s -> isActive s = true ->
  (forall key s', Table.get key tb = Some s' -> isActive s' = true -> key = id) ->
  List.find (fun kr : nat * Site => isActive kr.2) (Table.toArray tb) = Some (id, s).
Proof.
  intros Hget Hact Huniq.
  destruct (List.find _ (Table.toArray tb)) as [[k s']|] eqn:Hfind.
  - apply List.find_some in Hfind as [Hin Hs']. simpl in Hs'.
    apply list_elem_of_In, elem_of_toArray in Hin.
    pose proof (Huniq k s' Hin Hs') as ->. congruence.
  - exfalso. apply elem_of_toArray, list_elem_of_In in Hget.
    pose proof (List.find_none _ _ Hfind _ Hget) as Hno. simpl in Hno. congruence.
Qed.

(** X29. Starting the application on a store without a site ends with the
    seeded site active in the store and selected in the shell, so the
    pages are rendered instead of the skeleton.  Choosing an existing site
    in the site menu makes it the selected one, and it is the active one
    in the list the shell holds.  When no site is active, [loadSites]
    keeps the selection it had. *)
Theorem init_app_selects_the_active_site (inp : SeedInputs) (db : DB) (app : AppState)
    (id : nat) (st : AuthState) :
  (countRows (sites db) = 0%nat ->
   let app' := (initApp inp db app).2 in
   app_activeSiteId app' = S (length (sites db))
   /\ app_isInitialized app' = true
   /\ renderPage (app_isInitialized app') (app_activeSiteId app') pg_dashboard st
      = DashboardView)
  /\ (forall s,
        Table.get id (sites db) = Some s ->
        let app' := (App_handleSiteChange id db app).2 in
        app_activeSiteId app' = id
        /\ List.find (fun kr : nat * Site => isActive kr.2) (app_sites app')
           = Some (id, markActive true s)
        /\ app_sites app' = Table.toArray (sites (handleSiteChange id db)))
  /\ (List.find (fun kr : nat * Site => isActive kr.2) (Table.toArray (sites db)) = None ->
      app_activeSiteId (loadSites db app) = app_activeSiteId app)
  /\ renderPage (app_isInitialized initialApp) (app_activeSiteId initialApp)
       pg_dashboard st = SkeletonView.
Proof.
  split; [| split; [| split; [| done]]].
  - intros Hcount. cbv zeta. unfold initApp. cbn [snd app_activeSiteId app_isInitialized].
    assert (Hfind :
      List.find (fun kr : nat * Site => isActive kr.2)
        (Table.toArray (sites (seedDatabase inp db)))
      = Some (S (length (sites db)),
              {| site_name := "Site Kolwezi"; site_location := "Kolwezi, Lualaba";
                 isActive := true; site_createdAt := seed_clock inp 0 |})).
    { unfold seedDatabase. rewrite Hcount. cbn [Nat.eqb sites].
      rewrite toArray_add. unfold countRows in Hcount.
      destruct (Table.toArray (sites db)); [done | done]. }
    unfold loadSites. rewrite Hfind. cbn. done.
  - intros s Hget. cbv zeta. unfold App_handleSiteChange. cbn [snd].
    assert (id <> 0%nat) as Hid by (by destruct id).
    assert (Hfind :
      List.find (fun kr : nat * Site => isActive kr.2)
        (Table.toArray (sites (handleSiteChange id db)))
      = Some (id, markActive true s)).
    { apply find_active_unique.
      - rewrite get_sites_handleSiteChange, Hget, Nat.eqb_refl. done.
      - done.
      - intros key s' Hkey Hact. rewrite get_sites_handleSiteChange in Hkey.
        destruct (Table.get key (sites db)) as [s0|]; simpl in Hkey; [| done].
        injection Hkey as <-. simpl in Hact. by apply Nat.eqb_eq. }
    unfold loadSites. rewrite Hfind.
    destruct id as [|k]; [done |]. done.
  - intros Hnone. unfold loadSites. by rewrite Hnone.
Qed.

(** ** Month start *)

Lemma monthStartParses_all :
  forallb (fun a =>
    forallb (fun b =>
      forallb (fun m =>
        monthStartParses (1000 + 100 * Z.of_nat a + Z.of_nat b) (Z.of_nat m))
        (seq 0 12)) (seq 0 100)) (seq 0 90) = true.
Proof. vm_compute. reflexivity. Qed.

(** X30. For a four-digit year [getMonthStart] spells the first day of the
    month, and a dated production passes the month filter of the dashboard
    exactly when its day is that day or a later one (the filter has no upper
    bound).  For an earlier year the text is not a calendar date. *)
Theorem month_start_filter (fullYear month : Z) :
  1000 <= fullYear <= 9999 -> 0 <= month <= 11 ->
  Date.dayNumber (getMonthStart fullYear month)
  = Some (Date.MakeDay fullYear (month + 1) 1)
  /\ (forall date d,
        Date.dayNumber date = Some d ->
        (JS.str_ge date (getMonthStart fullYear month) = true
         <-> Date.MakeDay fullYear (month + 1) 1 <= d))
  /\ Date.dayNumber (getMonthStart 999 0) = None.
Proof.
  intros Hy Hm.
  assert (monthStartParses fullYear month = true) as Hparse.
  { pose proof monthStartParses_all as Hall.
    rewrite List.forallb_forall in Hall.
    specialize (Hall (Z.to_nat ((fullYear - 1000) / 100))).
    rewrite List.forallb_forall in Hall.
    specialize (Hall ltac:(apply List.in_seq; Z.div_mod_to_equations; lia)
                     (Z.to_nat ((fullYear - 1000) mod 100))).
    rewrite List.forallb_forall in Hall.
    specialize (Hall ltac:(apply List.in_seq; Z.div_mod_to_equations; lia)
                     (Z.to_nat month) ltac:(apply List.in_seq; lia)).
    rewrite !Z2Nat.id in Hall by (Z.div_mod_to_equations; lia).
    replace (1000 + 100 * ((fullYear - 1000) / 100) + (fullYear - 1000) mod 100)
      with fullYear in Hall by (Z.div_mod_to_equations; lia).
    exact Hall. }
  assert (Date.dayNumber (getMonthStart fullYear month)
          = Some (Date.MakeDay fullYear (month + 1) 1)) as Hday.
  { unfold monthStartParses in Hparse. unfold Date.dayNumber.
    destruct (Date.fields (getMonthStart fullYear month)) as [[[y m] d]|]; [| done].
    apply andb_true_iff in Hparse as [[Hy' Hm']%andb_true_iff Hd'].
    apply Z.eqb_eq in Hy', Hm', Hd'. by subst. }
  split; [exact Hday |]. split; [| done].
  intros date d Hd. unfold JS.str_ge.
  apply (iso_order_is_calendar_order _ _ _ _ Hday Hd).
Qed.

(** ** When a site is not deleted *)

(** [handleDeleteSite] leaves the store as it was when the page lists at
    most one site or the user does not confirm, and only then: for a stored
    site, with two or more sites listed and the confirmation given, the store
    changes.  The guard counts the sites of the page's list, not the rows
    of the store. *)
Theorem delete_site_refused_exactly (sitesProp : list (nat * Site))
    (activeSiteId : nat) (confirmed : bool) (id : nat) (db : DB) :
  ((length sitesProp <= 1)%nat \/ confirmed = false ->
   handleDeleteSite sitesProp activeSiteId confirmed id db = db)
  /\ (forall s,
        Table.get id (sites db) = Some s ->
        handleDeleteSite sitesProp activeSiteId confirmed id db = db ->
        (length sitesProp <= 1)%nat \/ confirmed = false).
Proof.
  split; [apply delete_site_refused |].
  intros s Hget Hsame.
  destruct (decide (length sitesProp <= 1)%nat) as [Hle | Hgt]; [by left |].
  destruct confirmed; [| by right]. exfalso.
  assert (Table.get id (sites (cascade id db)) = None) as Hgone.
  { change (sites (cascade id db)) with (Table.delete id (sites db)).
    rewrite get_delete. by rewrite decide_True. }
  destruct (handleDeleteSite_cases sitesProp activeSiteId id db ltac:(lia))
    as [Heq | (other & Hother & Heq)]; rewrite Heq in Hsame.
  - rewrite Hsame in Hgone. congruence.
  - assert (Table.get id (sites (handleSiteChange other (cascade id db))) = None) as Hnone
      by (by rewrite get_sites_handleSiteChange, Hgone).
    rewrite Hsame in Hnone. congruence.
Qed.

(** ** Worked instances *)

Lemma delete_site_keeps_one_active_witness :
  (activeCount (sites sampleDB) <= 1)%nat
  /\ (activeCount (sites (handleDeleteSite sampleSitesProp 1 true 1 sampleDB)) <= 1)%nat.
Proof.
  assert (activeCount (sites sampleDB) <= 1)%nat as Hdb by (vm_compute; lia).
  split; [exact Hdb |].
  exact (delete_site_keeps_one_active sampleSitesProp 1 true 1 sampleDB Hdb).
Defined.

Lemma delete_active_site_activates_another_witness :
  (1 < length sampleSitesProp)%nat
  /\ Table.get 2 (sites (handleDeleteSite sampleSitesProp 1 true 1 sampleDB))
     = Some (markActive true siteB).
Proof.
  assert (1 < length sampleSitesProp)%nat as Hlen by (vm_compute; lia).
  split; [exact Hlen |].
  pose proof (delete_active_site_activates_another sampleSitesProp 1 1 sampleDB Hlen) as H.
  cbv zeta in H. destruct H as [_ H].
  assert (2 <> 0)%nat as Hkey by lia.
  destruct (H 2%nat siteB eq_refl eq_refl Hkey) as [_ Hget].
  exact (Hget 2%nat).
Defined.

Lemma settings_update_then_get_witness :
  Table.first (settings sampleDB) = Some (1%nat, sampleSettings)
  /\ getSettings 6000 (handleToggle tg_showVsLastWeek true 5000 sampleDB)
     = (Some 1%nat,
        {| showVsYesterday := true; showVsLastWeek := true; showWorkingDays := true;
           showProductionComparison := true; showPurchaseComparison := true;
           theme := light; language := en; set_updatedAt := 5000 |}).
Proof.
  split; [reflexivity |].
  exact (proj1 (proj2 (settings_update_then_get
                         {| ch_showVsYesterday := None; ch_showVsLastWeek := None;
                            ch_showWorkingDays := None;
                            ch_showProductionComparison := None;
                            ch_showPurchaseComparison := None; ch_theme := None;
                            ch_language := None; ch_set_updatedAt := None |}
                         tg_showVsLastWeek true 5000 6000 sampleDB 1%nat sampleSettings
                         eq_refl))).
Defined.

Lemma purchase_receipts_stay_non_empty_witness :
  receiptPhoto
    {| pur_siteId := 1; item := "Gants"; amount := 12; currency := "USD";
       supplier := "Depot"; pur_category := pur_consumables;
       receiptPhoto := "data:image/png;base64,AAAA";
       purchaseDate := "2024-01-02"; purchaseTime := "10:30";
       pur_notes := EmptyString; pur_createdAt := 1000; pur_updatedAt := 5000 |}
  <> EmptyString.
Proof.
  assert (forall key p, Table.get key (purchases sampleDB) = Some p ->
                        receiptPhoto p <> EmptyString) as Hdb.
  { intros [|[|[|key]]] p Hget; vm_compute in Hget; try discriminate;
      injection Hget as <-; discriminate. }
  exact (purchase_receipts_stay_non_empty sampleNumber 1
           (samplePurchaseForm EmptyString) (Some (2%nat, samplePurchase 1)) false
           sampleNow 5000 5001 sampleDB Hdb 2%nat _ eq_refl).
Defined.

Lemma purchase_edit_keeps_receipt_witness :
  Table.get 2 (purchases sampleDB) = Some (samplePurchase 1)
  /\ receiptPhoto (samplePurchase 1) <> EmptyString
  /\ Table.get 2
       (purchases
          (Purchases_handleSubmit sampleNumber 1 (samplePurchaseForm EmptyString)
             (Some (2%nat, samplePurchase 1)) false sampleNow 5000 5001 sampleDB).1)
     = Some {| pur_siteId := 1; item := "Gants"; amount := 12; currency := "USD";
               supplier := "Depot"; pur_category := pur_consumables;
               receiptPhoto := "data:image/png;base64,AAAA";
               purchaseDate := "2024-01-02"; purchaseTime := "10:30";
               pur_notes := EmptyString; pur_createdAt := 1000; pur_updatedAt := 5000 |}.
Proof.
  assert (receiptPhoto (samplePurchase 1) <> EmptyString) as Hphoto by discriminate.
  split; [reflexivity |]. split; [exact Hphoto |].
  pose proof (purchase_edit_keeps_receipt sampleNumber 1 (samplePurchaseForm EmptyString)
                2%nat (samplePurchase 1) false sampleNow 5000 5001 sampleDB
                eq_refl Hphoto) as H.
  cbv zeta in H. exact (proj1 (proj2 H)).
Defined.

Lemma stale_edit_after_delete_witness :
  Table.get 2 (productions sampleDB) = Some (sampleProduction 2 "2024-01-02" "pluie, arret" 250)
  /\ Production_handleSubmit sampleNumber 2 (sampleProductionForm "260" "corrige")
       (Some (2%nat, sampleProduction 2 "2024-01-02" "pluie, arret" 250)) 5000 5001
       (Production_handleDelete true 2 sampleDB)
     = Production_handleDelete true 2 sampleDB.
Proof.
  split; [reflexivity |].
  pose proof (stale_edit_after_delete sampleNumber 2 (sampleProductionForm "260" "corrige")
                2%nat (sampleProduction 2 "2024-01-02" "pluie, arret" 250) 5000 5001
                sampleDB eq_refl) as H.
  cbv zeta in H. exact (proj1 H).
Defined.


Lemma menu_items_open_their_page_witness :
  (1 <> 0)%nat
  /\ (In pg_settings (getSidebarItems {| user := None; viewMode := supervisor |})
      <-> viewMode {| user := None; viewMode := supervisor |} = admin).
Proof.
  assert (1 <> 0)%nat as Hsite by lia.
  split; [exact Hsite |].
  exact (proj2 (proj2 (proj2 (menu_items_open_their_page 1 pg_settings
                                {| user := None; viewMode := supervisor |} Hsite)))).
Defined.


Lemma month_start_filter_witness :
  1000 <= 2024 <= 9999
  /\ 0 <= 0 <= 11
  /\ getMonthStart 2024 0 = "2024-01-01"
  /\ Date.dayNumber (getMonthStart 2024 0) = Some (Date.MakeDay 2024 (0 + 1) 1).
Proof.
  assert (1000 <= 2024 <= 9999) as Hyear by lia.
  assert (0 <= 0 <= 11) as Hmonth by lia.
  split; [exact Hyear |]. split; [exact Hmonth |]. split; [reflexivity |].
  exact (proj1 (month_start_filter 2024 0 Hyear Hmonth)).
Defined.

(** The seeded store of the sample inputs: fourteen productions of 250 g,
    dated from 2024-01-20 back to 2024-01-07. *)
Example seed_sample :
  let db := seedDatabase sampleSeed emptyDB in
  List.map (fun kr : nat * Production => prod_date kr.2) (Table.toArray (productions db))
  = List.map (fun i => seed_date sampleSeed i) (seq 0 14)
  /\ Table.get 14 (productions db)
     = Some {| prod_siteId := 1; prod_date := "2024-01-07"; quantityGrams := 250;
               prod_team := "Équipe B"; prod_shift := afternoon; prod_notes := EmptyString;
               prod_createdAt := 1034; prod_updatedAt := 1035 |}.
Proof. vm_compute. split; reflexivity. Qed.

(** A comma in the notes gives the line a sixth cell. *)
Example csv_line_with_comma :
  splitOn ","
    (String.concat ","
       (csvRow sampleNumberToString (sampleProduction 2 "2024-01-02" "pluie, arret" 250)))
  = ["2024-01-02"; "250"; "A"; "morning"; "pluie"; " arret"].
Proof. reflexivity. Qed.

Lemma worker_form_round_trip_witness :
  Table.get 2 (workers sampleDB) = Some (sampleWorker 2)
  /\ Table.get 2
       (workers (Workers_handleSubmit 2 sampleWorkerForm (Some (2%nat, sampleWorker 2))
                   5000 5001 sampleDB))
     = Some {| wk_siteId := 2; firstName := "Jean"; lastName := "Kabongo";
               wk_role := "Chef d'equipe"; wk_phone := "+243 812 345 678";
               wk_team := "B"; wk_status := leave; hireDate := "2023-01-15";
               wk_createdAt := 1000; wk_updatedAt := 5000 |}.
Proof.
  split; [reflexivity |].
  pose proof (worker_form_round_trip 2 sampleWorkerForm 2 (sampleWorker 2) 5000 5001
                sampleDB) as H.
  cbv zeta in H. destruct H as (_ & _ & _ & H).
  exact (proj1 (H eq_refl)).
Defined.


Lemma range_filter_by_days_and_empty_bounds_witness :
  inRange january (sampleProduction 1 "2024-01-03" EmptyString 400) = true
  <-> 19723 <= 19725 <= 19725.
Proof.
  exact (proj1 (range_filter_by_days_and_empty_bounds january
                  (sampleProduction 1 "2024-01-03" EmptyString 400))
           19723 19725 19725 eq_refl eq_refl eq_refl).
Defined.



Lemma dashboard_is_site_scoped_witness :
  (1 < length sampleSitesProp)%nat
  /\ todayProduction
       (loadData 2 sampleClock 5000 (handleDeleteSite sampleSitesProp 1 true 2 sampleDB)).2
     = 0%Q
  /\ loadData 2 sampleClock 5000
       (Production_handleSubmit sampleNumber 1 (sampleProductionForm "260" EmptyString)
          None 5000 5001 sampleDB)
     = loadData 2 sampleClock 5000 sampleDB.
Proof.
  assert (1 < length sampleSitesProp)%nat as Hlen by (vm_compute; lia).
  assert (1 <> 2)%nat as Hsite by lia.
  destruct (dashboard_is_site_scoped sampleNumber 2 sampleClock 5000 sampleDB)
    as [Hdel Hadd].
  split; [exact Hlen |]. split.
  - exact (f_equal todayProduction (Hdel sampleSitesProp 1%nat Hlen)).
  - exact (Hadd 1%nat (sampleProductionForm "260" EmptyString) 5000%Z 5001%Z Hsite).
Defined.



Lemma gated_pages_need_their_role_witness :
  renderPage true 1 pg_settings {| user := None; viewMode := admin |} = SettingsView
  /\ canAccess {| user := None; viewMode := admin |} admin = true
  /\ renderPage true 1 pg_settings {| user := None; viewMode := supervisor |}
     = DashboardView.
Proof.
  split; [reflexivity |]. split; [| reflexivity].
  exact (proj1 (proj2 (gated_pages_need_their_role true 1 pg_settings
                         {| user := None; viewMode := admin |})) eq_refl).
Defined.

Lemma check_out_closes_only_own_open_records_witness :
  ac_time sampleAttendanceClock <> EmptyString
  /\ List.map isOpen
       (todayRecords
          (handleCheckOut 1 sampleAttendanceClock (Some sampleUser)
             (handleCheckIn 1 sampleAttendanceClock (Some sampleUser) emptyAttendance)))
     = [false].
Proof.
  assert (ac_time sampleAttendanceClock <> EmptyString) as Htime by discriminate.
  split; [exact Htime |].
  pose proof (check_out_closes_only_own_open_records 1 sampleAttendanceClock
                (Some sampleUser)
                (handleCheckIn 1 sampleAttendanceClock (Some sampleUser) emptyAttendance))
    as H.
  cbv zeta in H. destruct H as (_ & _ & _ & _ & _ & H).
  exact (f_equal (fun b => [b]) (H Htime _ (or_introl eq_refl) eq_refl)).
Defined.

Lemma check_in_then_reload_witness :
  List.find (isOf (Some sampleUser)) (todayRecords emptyAttendance) = None
  /\ isCheckedIn
       (loadTodayAttendance 1 "2024-01-02" (Some sampleUser)
          (handleCheckIn 1 sampleAttendanceClock (Some sampleUser) emptyAttendance))
     = true.
Proof.
  split; [reflexivity |].
  pose proof (check_in_then_reload 1 sampleAttendanceClock sampleAttendanceClock
                sampleUser emptyAttendance) as H.
  cbv zeta in H. destruct H as (_ & _ & H & _).
  exact (proj1 (H eq_refl)).
Defined.

Lemma seed_runs_once_witness :
  countRows (sites sampleDB) <> 0%nat
  /\ seedDatabase sampleSeed sampleDB = sampleDB.
Proof.
  assert (countRows (sites sampleDB) <> 0%nat) as Hsites by (vm_compute; lia).
  split; [exact Hsites |].
  exact (proj1 (seed_runs_once sampleSeed sampleSeed sampleDB) Hsites).
Defined.

Lemma csv_line_reads_back_witness :
  splitOn ","
    (String.concat ","
       (csvRow sampleNumberToString (sampleProduction 1 "2024-01-01" EmptyString 400)))
  = ["2024-01-01"; "400"; "A"; "morning"; EmptyString].
Proof.
  pose proof (csv_line_reads_back sampleNumberToString
                (sampleProduction 1 "2024-01-01" EmptyString 400)) as H.
  cbv zeta in H. exact (proj1 (proj2 H) eq_refl).
Defined.

Lemma init_app_selects_the_active_site_witness :
  countRows (sites emptyDB) = 0%nat
  /\ app_activeSiteId (initApp sampleSeed emptyDB initialApp).2 = 1%nat
  /\ (Table.get 2 (sites sampleDB) = Some siteB
      /\ app_activeSiteId (App_handleSiteChange 2 sampleDB initialApp).2 = 2%nat).
Proof.
  destruct (init_app_selects_the_active_site sampleSeed emptyDB initialApp 2
              {| user := None; viewMode := admin |}) as [Hinit _].
  destruct (init_app_selects_the_active_site sampleSeed sampleDB initialApp 2
              {| user := None; viewMode := admin |}) as (_ & Hchange & _).
  split; [reflexivity |]. split.
  - exact (proj1 (Hinit eq_refl)).
  - split; [reflexivity |]. exact (proj1 (Hchange siteB eq_refl)).
Defined.
